(** * fem-reference-results: the shared [femref] helpers and the generator scripts

    A shallow embedding of [src/femref/utils.py], [src/femref/cubit_utils.py]
    and of the three generator scripts under [examples/], with the
    properties the specification states about them.

    Conventions.
    - Python [int] is [Z]; Python [float] is the binary64 [float] of
      [PrimFloat]; [str] is [string]; a [dict] is an association list in
      insertion order (the order [dict.items()] iterates in); a [set] of
      ids is a [gset Z].
    - The meshing session ([CubitPy]) is an external service. The helpers
      of [cubit_utils.py] are written against the interface
      [CubitSession]; the scripts run against a session whose answers are
      functions of the calls made so far ([Engine]).
    - The file system is a finite map from paths to contents, together
      with the set of directories that exist. Opening a path for writing
      raises [FileNotFoundError] when the directory of the path does not
      exist, and creates or truncates the entry otherwise. Directories are
      named by the text of their path; a path never names both a file and
      a directory, and a directory that exists can be written to.
    - The order in which Python lists the elements of a set is not
      modelled: [list(s)] is any enumeration of [s] without repetition
      ([PySet]).
    - What Python prints for a [float] and for a [dict] is not modelled:
      both are fields of [Formatter]. *)

From Stdlib Require Import ZArith List Ascii String DecimalString PrimFloat Uint63 Sorted Lia.
From stdpp Require Import gmap strings list.

Local Open Scope Z_scope.

(* Decimal float literals denote the nearest binary64 value, as in Python. *)
Set Warnings "-inexact-float".

(** ** Python strings *)

Module Py.

(** The newline character of ["\n"]. *)
Definition nl : string := String (ascii_of_nat 10) EmptyString.

(** [str(n)] for an [int]. *)
Definition int_str (n : Z) : string := NilZero.string_of_int (Z.to_int n).

(** ["\n".join(ls)]. *)
Fixpoint lines (ls : list string) : string :=
  match ls with
  | [] => ""
  | [l] => l
  | l :: ls => l +:+ nl +:+ lines ls
  end.

(** [s.endswith(suffix)]. *)
Definition endswith (s suffix : string) : bool :=
  let n := String.length s in
  let k := String.length suffix in
  (k <=? n)%nat && String.eqb (substring (n - k) k s) suffix.

(** [s.startswith(prefix)]. *)
Fixpoint startswith (s pre : string) {struct pre} : bool :=
  match pre with
  | EmptyString => true
  | String a pre =>
      match s with
      | EmptyString => false
      | String b s => Ascii.eqb a b && startswith s pre
      end
  end.

(** [float(n)] for an [int] of small magnitude (exact below [2^53]). *)
Definition float_of_int (n : Z) : float :=
  if n <? 0 then PrimFloat.opp (PrimFloat.of_uint63 (Uint63.of_Z (- n)))
  else PrimFloat.of_uint63 (Uint63.of_Z n).

(** [a / b] on two [int]s: Python's true division. *)
Definition truediv_int (a b : Z) : float :=
  PrimFloat.div (float_of_int a) (float_of_int b).

(** Values that occur in the option dictionaries of the scripts. *)
#[warnings="-register-all"]
Inductive Value : Type :=
| VInt (n : Z)
| VFloat (x : float)
| VStr (s : string)
| VDict (d : list (string * Value)).

(** [hasattr(value, "items")]. *)
Definition has_items (v : Value) : bool :=
  match v with VDict _ => true | _ => false end.

(** [d[key]]: [None] stands for [KeyError]. *)
Fixpoint dict_get {A} (key : string) (d : list (string * A)) : option A :=
  match d with
  | [] => None
  | (k, v) :: rest => if String.eqb k key then Some v else dict_get key rest
  end.

(** The text Python prints for floats and dictionaries. *)
Class Formatter := {
  float_str : float -> string;
  dict_str : list (string * Value) -> string
}.

(** [f"{v}"]. *)
Definition str `{Formatter} (v : Value) : string :=
  match v with
  | VInt n => int_str n
  | VFloat x => float_str x
  | VStr s => s
  | VDict d => dict_str d
  end.

End Py.

Export Py.

(** ** Paths, directories and [open] *)

Module Os.

Definition is_slash (c : ascii) : bool := Ascii.eqb c "/".

Fixpoint has_slash (s : string) : bool :=
  match s with
  | EmptyString => false
  | String c s => is_slash c || has_slash s
  end.

Fixpoint all_slash (s : string) : bool :=
  match s with
  | EmptyString => true
  | String c s => is_slash c && all_slash s
  end.

(** [p[:p.rfind('/') + 1]]: the text up to and including the last slash. *)
Fixpoint head_of (p : string) : string :=
  match p with
  | EmptyString => EmptyString
  | String c rest => if is_slash c || has_slash rest then String c (head_of rest)
                     else EmptyString
  end.

(** [s.rstrip('/')]. *)
Fixpoint rstrip_slash (s : string) : string :=
  match s with
  | EmptyString => EmptyString
  | String c rest => if is_slash c && all_slash rest then EmptyString
                     else String c (rstrip_slash rest)
  end.

(** [os.path.dirname(p)] for POSIX paths: the head up to the last slash,
    without its trailing slashes unless it consists of slashes only. *)
Definition dirname (p : string) : string :=
  let head := head_of p in
  if all_slash head then head else rstrip_slash head.

(** The directories that exist when a call is made, besides the working
    directory and the root. *)
Class Disk := { directories : gset string }.

(** The directory [d] exists: it is the root or empty (a path without a
    slash lies in the working directory), it is the working directory
    ["."], or it is one of the [directories]. *)
Definition dir_exists {disk : Disk} (d : string) : bool :=
  all_slash d || String.eqb d "." || bool_decide (d ∈ directories).

(** [open(path, "w")] finds the directory of [path]. *)
Definition can_open {disk : Disk} (path : string) : bool := dir_exists (dirname path).

(** The directories above [p], nearest first. *)
Fixpoint ancestors_upto (fuel : nat) (p : string) : list string :=
  match fuel with
  | O => []
  | S fuel =>
      let d := dirname p in
      if String.eqb d p || String.eqb d "" then [] else d :: ancestors_upto fuel d
  end.

Definition ancestors (p : string) : list string := ancestors_upto (String.length p) p.

(** [os.makedirs(path, exist_ok=True)]: [path] and the directories above
    it exist afterwards. *)
Definition makedirs (path : string) (dirs : gset string) : gset string :=
  list_to_set (path :: ancestors path) ∪ dirs.

End Os.

(** ** [femref/cubit_utils.py] *)

Module CubitUtils.

(** The part of the [CubitPy] session that the helpers use. *)
Class CubitSession (S : Type) := {
  cmd : string -> S -> S;
  parse_cubit_list : string -> string -> S -> list Z;
  get_node_count : S -> Z;
  get_element_count : S -> Z;
  get_nodeset_node_count : Z -> S -> Z
}.

(** The return value of [cubit_cmd]: [Union[List[int], int]]. *)
Inductive Ids : Type :=
| One (id : Z)
| Many (ids : list Z).

(** [list(s)] for a set of ids: Python fixes no order, so any enumeration
    of the set without repetition. *)
Class PySet := {
  list_of_set : gset Z -> list Z;
  list_of_set_enumerates : forall s : gset Z, list_of_set s ≡ₚ elements s
}.

Section WithSession.
Context {S : Type} {session_ops : CubitSession S} {py_set : PySet}.

  (** [set(cubit.parse_cubit_list(track_id, "all"))]. *)
Definition tracked (track_id : string) (cubit : S) : gset Z :=
    list_to_set (parse_cubit_list track_id "all" cubit).

  (** [cubit_cmd(command, cubit, track_id, flatten_if_possible)]: the
      session after the command and the returned ids. *)
Definition cubit_cmd (command : string) (cubit : S) (track_id : string)
      (flatten_if_possible : bool) : S * Ids :=
    let before_cmd := tracked track_id cubit in
    let cubit' := cmd command cubit in
    let after_cmd := tracked track_id cubit' in
    let new_ids := list_of_set (after_cmd ∖ before_cmd) in
    match new_ids with
    | [id] => if flatten_if_possible then (cubit', One id) else (cubit', Many new_ids)
    | _ => (cubit', Many new_ids)
    end.

  (** [print_mesh_statistics(cubit)]: the lines printed. *)
Definition print_mesh_statistics (cubit : S) : list string :=
    let num_nodes := get_node_count cubit in
    let num_elements := get_element_count cubit in
    let nodeset_ids := parse_cubit_list "nodeset" "all" cubit in
    ("Total nodes:        " +:+ int_str num_nodes)
    :: ("Total elements:     " +:+ int_str num_elements)
    :: map (fun nsid =>
              "Nodes in Nodeset " +:+ int_str nsid +:+ ": "
              +:+ int_str (get_nodeset_node_count nsid cubit))
           nodeset_ids.

End WithSession.

(** The ids a result carries, as a set. *)
Definition ids_of (r : Ids) : gset Z :=
  match r with
  | One id => {[ id ]}
  | Many ids => list_to_set ids
  end.

Definition is_one (r : Ids) : bool :=
  match r with One _ => true | Many _ => false end.

End CubitUtils.

(** ** [femref/utils.py] *)

Module Utils.

(** The file system: contents by path. *)
Abbreviation FS := (gmap string string).

(** How a call ends: it returns, or [KeyError(key)] is raised, or [open]
    raises [FileNotFoundError] for the path. *)
Inductive Outcome : Type :=
| Returned
| KeyError (key : string)
| FileNotFoundError (path : string).

(** The path that is opened: [filepath] itself when it ends in
    [README.md], else [f"{filepath}/README.md"]. *)
Definition readme_path (filepath : string) : string :=
  if negb (endswith filepath "README.md") then filepath +:+ "/README.md"
  else filepath.

(** [f.write(text)] on the text written so far. *)
Definition write (f text : string) : string := f +:+ text.

Section WithFormatter.
Context {fmt : Formatter} {disk : Os.Disk}.

(** The inner loop: one [f.write] per [param, val] of [value.items()]. *)
Definition write_rows (value : list (string * Value)) (f : string) : string :=
  fold_left (fun f pv => write f ("| " +:+ pv.1 +:+ " | " +:+ str pv.2 +:+ " |" +:+ nl))
            value f.

(** The outer loop over [options.items()]. *)
Definition write_parameters (options : list (string * Value)) (f : string) : string :=
  fold_left (fun f kv =>
               match kv.2 with
               | VDict value =>
                   let f := write f ("## " +:+ kv.1 +:+ nl) in
                   let f := write f ("| Parameter | Value |" +:+ nl +:+ "|:--|:--|" +:+ nl) in
                   let f := write_rows value f in
                   write f (nl +:+ nl)
               | _ => f
               end)
            options f.

(** [write_readme(filepath, options)]. [now] is the text of
    [datetime.datetime.now().strftime('%B %d, %Y at %I:%M%p ')] at the
    time of the call. [open(filepath, "w")] comes first: without the
    directory it raises and nothing is written. When [KeyError] is raised
    inside the [with] block the file is closed with what had been written
    until then. *)
Definition write_readme (filepath : string) (options : list (string * Value))
    (now : string) (fs : FS) : FS * Outcome :=
  let filepath := readme_path filepath in
  if negb (Os.can_open filepath) then (fs, FileNotFoundError filepath)
  else
    let fs := <[filepath := ""]> fs in
    let f := "" in
    match dict_get "title" options with
    | None => (fs, KeyError "title")
    | Some title =>
        let f := write f ("# " +:+ str title +:+ nl +:+ nl) in
        match dict_get "description" options with
        | None => (<[filepath := f]> fs, KeyError "description")
        | Some description =>
            let f := write f (str description +:+ nl +:+ nl +:+ nl) in
            let f := write_parameters options f in
            let f := write f ("Last updated: " +:+ now +:+ nl) in
            (<[filepath := f]> fs, Returned)
        end
    end.

End WithFormatter.

(** *** The layout in the words of the specification *)

(** [''.join(parts)]. *)
Definition join (parts : list string) : string := fold_right String.append "" parts.

(** The entries of [options] whose value is itself a dictionary, in
    iteration order. *)
Fixpoint dict_entries (options : list (string * Value))
    : list (string * list (string * Value)) :=
  match options with
  | [] => []
  | (key, VDict value) :: rest => (key, value) :: dict_entries rest
  | _ :: rest => dict_entries rest
  end.

(** A table row for one key-value pair. *)
Definition is_row `{Formatter} (row : string) (pv : string * Value) : Prop :=
  row = "| " +:+ pv.1 +:+ " | " +:+ str pv.2 +:+ " |" +:+ nl.

(** A [## key] section: the heading, the two-column table head, and one
    row per pair of the nested dictionary, in its order. *)
Definition is_section `{Formatter} (sec : string)
    (kv : string * list (string * Value)) : Prop :=
  exists rows,
    sec = "## " +:+ kv.1 +:+ nl
          +:+ "| Parameter | Value |" +:+ nl +:+ "|:--|:--|" +:+ nl
          +:+ join rows +:+ nl +:+ nl
    /\ Forall2 is_row rows kv.2.

(** The text of one row and of one section, as functions. *)
Definition row_text `{Formatter} (pv : string * Value) : string :=
  "| " +:+ pv.1 +:+ " | " +:+ str pv.2 +:+ " |" +:+ nl.

Definition section_text `{Formatter} (kv : string * list (string * Value)) : string :=
  "## " +:+ kv.1 +:+ nl
  +:+ "| Parameter | Value |" +:+ nl +:+ "|:--|:--|" +:+ nl
  +:+ join (map row_text kv.2) +:+ nl +:+ nl.

(** An entry that can reach the README: a dictionary, or one of the two
    header keys. *)
Definition reaches_readme (kv : string * Value) : bool :=
  has_items kv.2 || String.eqb kv.1 "title" || String.eqb kv.1 "description".

End Utils.

(** ** The meshing session as the scripts use it *)

Module cupy.

(** [cupy.geometry]. *)
Inductive geometry : Type := vertex | curve | surface | volume.

(** [cupy.bc_type], the members the scripts use. *)
Inductive bc_type : Type := dirichlet | neumann | solid_to_solid_curve_contact.

(** [cupy.element_type], the members the scripts use. *)
Inductive element_type : Type := quad4 | hex8.

End cupy.

Module Cubit.
Import Utils.

(** A [bc_description]: a line of text, or a dictionary. *)
Inductive DescValue : Type :=
| DInt (n : Z)
| DStr (s : string)
| DInts (ns : list Z).

Inductive Description : Type :=
| Text (s : string)
| Mapping (d : list (string * DescValue)).

(** Objects the session hands out: [cubit.surface(id)], [cubit.volume(id)],
    the result of [cubit.group(...)], and [item.surfaces()[i]],
    [item.volumes()[i]]. *)
Inductive Item : Type :=
| Surface (id : Z)
| Volume (id : Z)
| Group (id : Z)
| SurfaceOf (item : Item) (i : nat)
| VolumeOf (item : Item) (i : nat).

(** [item.id()]. *)
Fixpoint item_id (item : Item) : Z :=
  match item with
  | Surface id | Volume id | Group id => id
  | SurfaceOf item _ | VolumeOf item _ => item_id item
  end.

(** The calls that act on the session. A keyword argument left out is
    [None]. [SetHead] is the assignment to [cubit.head]. *)
Inductive Call : Type :=
| Cmd (command : string)
| MakeGroup (add_value : string) (name : option string)
| AddNodeSet (item : Item) (name : option string)
    (bc : option cupy.bc_type) (bc_description : option Description)
| AddElementType (item : Item) (el_type : cupy.element_type)
    (bc_description : option Description)
| DisplayInCubit (labels : list cupy.geometry)
| SetHead (head : string)
| CreateDat (filename : string).

(** What the engine answers, as a function of the calls made so far in
    the session. Reading leaves the session as it is. *)
Class Engine := {
  last_id : cupy.geometry -> list Call -> Z;
  group_id : list Call -> Z;
  entity_list : string -> string -> list Call -> list Z;
  node_count : list Call -> Z;
  element_count : list Call -> Z;
  nodeset_node_count : Z -> list Call -> Z;
  dat_text : list Call -> string
}.

(** A session given by its calls is a [CubitSession]. *)
#[global] Instance history_session `{Engine} : CubitUtils.CubitSession (list Call) := {
  CubitUtils.cmd command h := h ++ [Cmd command];
  CubitUtils.parse_cubit_list := entity_list;
  CubitUtils.get_node_count := node_count;
  CubitUtils.get_element_count := element_count;
  CubitUtils.get_nodeset_node_count := nodeset_node_count
}.

(** What a script does to the session and to the file system, in the
    order it happens. [Open path] is the script itself calling
    [open(path, "w")]. *)
Inductive Effect : Type :=
| Session (c : Call)
| Makedirs (path : string)
| Open (path : string).

(** The world of a script: the effects so far, the files, the lines
    printed to standard output, and the directories that exist. *)
Record World := {
  trace : list Effect;
  files : FS;
  stdout : list string;
  dirs : gset string
}.

(** The calls of the session so far. *)
Fixpoint calls (t : list Effect) : list Call :=
  match t with
  | [] => []
  | Session c :: t => c :: calls t
  | _ :: t => calls t
  end.

(** Scripts are state transformers on the world. *)
Definition M (A : Type) : Type := World -> A * World.

#[global] Instance M_ret : MRet M := fun A a w => (a, w).
#[global] Instance M_bind : MBind M :=
  fun A B k m w => let r := m w in k r.1 r.2.

Definition emit (e : Effect) : M unit :=
  fun w => (tt, {| trace := trace w ++ [e]; files := files w; stdout := stdout w;
                   dirs := dirs w |}).

Definition history : M (list Call) := fun w => (calls (trace w), w).

(** The file at [path] gets the contents [text]. *)
Definition set_file (path text : string) : M unit :=
  fun w => (tt, {| trace := trace w; files := <[path := text]> (files w);
                   stdout := stdout w; dirs := dirs w |}).

(** The disk as the world has it. *)
Definition disk_of (w : World) : Os.Disk := {| Os.directories := dirs w |}.

(** A function on the file system, run on the files and the directories
    of the world. *)
Definition on_files {A} (f : Os.Disk -> FS -> FS * A) : M A :=
  fun w => let r := f (disk_of w) (files w) in
           (r.2, {| trace := trace w; files := r.1; stdout := stdout w;
                    dirs := dirs w |}).

(** New directories. *)
Definition set_dirs (f : gset string -> gset string) : M unit :=
  fun w => (tt, {| trace := trace w; files := files w; stdout := stdout w;
                   dirs := f (dirs w) |}).

Definition when (b : bool) (m : M unit) : M unit := if b then m else mret tt.

(** The world after a script has run on a fresh session, from the files
    [fs] and the directories of the disk. *)
Definition run {disk : Os.Disk} {A} (m : M A) (fs : FS) : World :=
  (m {| trace := []; files := fs; stdout := []; dirs := Os.directories |}).2.

Section WithEngine.
Context {engine : Engine} {fmt : Formatter}.

(** Modelled from the spec: the methods of the [CubitPy] session, whose
    code is in the [cubitpy] package and not in this repository. The spec
    has the session as an opaque service that executes commands and
    answers queries: a call is recorded in the trace, and a query is
    answered by the engine from the calls made so far.

    [cubit.cmd(command)]. *)
Definition cmd (command : string) : M unit := emit (Session (Cmd command)).

(** Modelled from the spec: [cubit.get_last_id(g)] of [cubitpy], a query
    to the opaque session. *)
Definition get_last_id (g : cupy.geometry) : M Z :=
  h ← history; mret (last_id g h).

(** Modelled from the spec: [cubit.group(add_value=..., name=...)] of
    [cubitpy]; the session makes the group and hands out its object. *)
Definition group (add_value : string) (name : option string) : M Item :=
  emit (Session (MakeGroup add_value name));;
  h ← history; mret (Group (group_id h)).

(** Modelled from the spec:
    [cubit.add_node_set(item, name=..., bc_type=..., bc_description=...)]
    of [cubitpy], recorded with the arguments given. *)
Definition add_node_set (item : Item) (name : option string)
    (bc : option cupy.bc_type) (bc_description : option Description) : M unit :=
  emit (Session (AddNodeSet item name bc bc_description)).

(** Modelled from the spec:
    [cubit.add_element_type(item, el_type=..., bc_description=...)] of
    [cubitpy], recorded with the arguments given. *)
Definition add_element_type (item : Item) (el_type : cupy.element_type)
    (bc_description : option Description) : M unit :=
  emit (Session (AddElementType item el_type bc_description)).

(** Modelled from the spec: [cubit.display_in_cubit(labels=...)] of
    [cubitpy], whose code is not in this repository. It is a call to the
    opaque session and is recorded as such; what it does to the disk
    while the viewer runs is not part of the model. *)
Definition display_in_cubit (labels : list cupy.geometry) : M unit :=
  emit (Session (DisplayInCubit labels)).

(** Modelled from the spec: the assignment [cubit.head = text] on the
    [cubitpy] session object. *)
Definition set_head (text : string) : M unit := emit (Session (SetHead text)).

(** Modelled from the spec: [cubit.create_dat(filename)] of [cubitpy],
    whose code is not in this repository. The spec has the scripts emit
    "a solver input file" through the session: the call is recorded and
    the text the session produces becomes the contents of [filename]. *)
Definition create_dat (filename : string) : M unit :=
  emit (Session (CreateDat filename));;
  h ← history; set_file filename (dat_text h).

(** [print(line)] for each of the lines, in order. *)
Definition print_lines (lines : list string) : M unit :=
  fun w => (tt, {| trace := trace w; files := files w; stdout := stdout w ++ lines;
                   dirs := dirs w |}).

(** [print_mesh_statistics(cubit)] of [femref.cubit_utils]. *)
Definition print_mesh_statistics : M unit :=
  h ← history; print_lines (CubitUtils.print_mesh_statistics h).

(** [os.makedirs(path, exist_ok=True)]: the directory and those above it
    exist from now on. *)
Definition makedirs (path : string) : M unit :=
  emit (Makedirs path);; set_dirs (Os.makedirs path).

(** [write_readme(filepath, options)] of [femref.utils], at clock text
    [now], on the files and directories of the world. *)
Definition write_readme (now : string) (filepath : string)
    (options : list (string * Value)) : M Outcome :=
  emit (Open (readme_path filepath));;
  on_files (fun disk => Utils.write_readme (disk := disk) filepath options now).

End WithEngine.

End Cubit.

(** ** [examples/bending_beam/2D/nonlinear_logneohooke/generate_hyperelastic_bending_beam.py] *)

Module BendingBeam.
Import Cubit.

Definition LENGTH : Z := 20.
Definition HEIGHT : Z := 2.
Definition MESH_SIZE : float := 0.1.
Definition EPS : float := 1e-5.
Definition KINEMATICS : string := "nonlinear".
Definition STRESS_STRAIN_MODEL : string := "plane_strain".
Definition MUE : float := 4.17e9.
Definition LAMBDA : float := 2.78e9.
Definition YOUNG : float := (MUE * (3.0 * LAMBDA + 2.0 * MUE) / (LAMBDA + MUE))%float.
Definition NUE : float := (LAMBDA / (2.0 * (LAMBDA + MUE)))%float.
Definition SHEAR_FORCE : float := 10.0e6.
Definition LOAD_STEPS : Z := 50.
Definition SHOW_STEP : list bool := [false; false; false].
Definition SHOW_FINAL : bool := false.

Definition OPTIONS : list (string * Value) :=
  [ ("title", VStr "Hyperelastic bending beam with nonlinear kinematics under shear force");
    ("description", VStr "We simulate the large deformation of a hyperelastic bending beam by prescribing a Neumann BC which increases with the load step.");
    ("geometry", VDict [ ("length", VInt LENGTH); ("height", VInt HEIGHT) ]);
    ("mesh", VDict [ ("mesh_size", VFloat MESH_SIZE) ]);
    ("model", VDict [ ("kinematics", VStr KINEMATICS);
                      ("stress_closure", VStr STRESS_STRAIN_MODEL) ]);
    ("material", VDict [ ("constitutive_law", VStr "ELAST_CoupLogNeoHooke");
                         ("shear_modulus", VFloat MUE);
                         ("lame_parameter", VFloat LAMBDA) ]);
    ("boundary_conditions", VDict [ ("max_shear_force", VFloat SHEAR_FORCE);
                                    ("load_steps", VInt LOAD_STEPS) ]) ].

Section Script.
Context {engine : Engine} {fmt : Formatter}.

(** The text assigned to [cubit.head]. *)
Definition head : string :=
  lines
    [ "------------------------------------------------------------------PROBLEM SIZE";
      "    DIM                             2";
      "    ------------------------------------------------------------------PROBLEM TYPE";
      "    PROBLEMTYPE                     Structure";
      "    ----------------------------------------------------------------------------IO";
      "    OUTPUT_BIN                      no";
      "    STRUCT_DISP                     yes";
      "    FILESTEPS                       1000";
      "    VERBOSITY                       Standard";
      "    STRUCT_STRAIN                   gl";
      "    STRUCT_STRESS                   cauchy";
      "    OUTPUT_SPRING                   Yes";
      "    WRITE_INITIAL_STATE             yes";
      "    ---------------------------------------------------------IO/RUNTIME VTK OUTPUT";
      "    OUTPUT_DATA_FORMAT              binary";
      "    INTERVAL_STEPS                  " +:+ float_str (float_of_int LOAD_STEPS / 10.0);
      "    EVERY_ITERATION                 no";
      "    -----------------------------------------------IO/RUNTIME VTK OUTPUT/STRUCTURE";
      "    OUTPUT_STRUCTURE                yes";
      "    DISPLACEMENT                    yes";
      "    ELEMENT_OWNER                   yes";
      "    STRESS_STRAIN                   yes";
      "    ------------------------------------------------------------STRUCTURAL DYNAMIC";
      "    INT_STRATEGY                    Standard";
      "    DYNAMICTYPE                     Statics";
      "    RESULTSEVERY                    1";
      "    RESTARTEVERY                    1";
      "    TIMESTEP                        " +:+ float_str (1.0 / float_of_int LOAD_STEPS);
      "    NUMSTEP                         " +:+ int_str LOAD_STEPS;
      "    MAXTIME                         1";
      "    PREDICT                         TangDis";
      "    NORM_RESF                       Rel";
      "    TOLDISP                         1e-7";
      "    TOLRES                          1e-7";
      "    LINEAR_SOLVER                   1";
      "    NLNSOL                          fullnewton";
      "    MAXITER                         50";
      "    ----------------------------------------------------------------------SOLVER 1";
      "    NAME                            Structure_Solver";
      "    SOLVER                          Superlu";
      "    -----------------------------------------------------------STRUCT NOX/Printing";
      "    Outer Iteration                 = Yes";
      "    Inner Iteration                 = No";
      "    Outer Iteration StatusTest      = No";
      "    ---------------------------------------------------------------------MATERIALS";
      "    MAT 1  MAT_ElastHyper NUMMAT 1 MATIDS 10 DENS 0.1";
      "    MAT 10 ELAST_CoupLogNeoHooke MODE Lame C1 " +:+ float_str MUE +:+ " C2 " +:+ float_str LAMBDA;
      "    ------------------------------------------------------------------------FUNCT1";
      "    SYMBOLIC_FUNCTION_OF_SPACE_TIME t" ].

Definition generate_bending_beam (filename : string) : M unit :=
  cmd ("create surface rectangle width " +:+ int_str LENGTH
       +:+ " height " +:+ int_str HEIGHT +:+ " zplane");;
  id ← get_last_id cupy.surface;
  let beam := Surface id in
  when (nth 0 SHOW_STEP false) (display_in_cubit []);;
  cmd ("surface " +:+ int_str (item_id beam) +:+ " size " +:+ float_str MESH_SIZE);;
  cmd ("mesh surface " +:+ int_str (item_id beam));;
  when (nth 1 SHOW_STEP false) (display_in_cubit []);;
  g ← group ("add curve with y_coord < "
             +:+ float_str (truediv_int (- HEIGHT) 2 + EPS)%float) None;
  add_node_set g (Some "bottom") (Some cupy.dirichlet)
    (Some (Text "NUMDOF 2 ONOFF 0 0 VAL 0 0 FUNCT 0 0"));;
  g ← group ("add curve with x_coord < "
             +:+ float_str (truediv_int (- LENGTH) 2 + EPS)%float) None;
  add_node_set g (Some "left") (Some cupy.dirichlet)
    (Some (Text "NUMDOF 2 ONOFF 1 1 VAL 0 0 FUNCT 0 0"));;
  g ← group ("add curve with y_coord > "
             +:+ float_str (truediv_int HEIGHT 2 - EPS)%float) None;
  add_node_set g (Some "top") (Some cupy.dirichlet)
    (Some (Text "NUMDOF 2 ONOFF 0 0 VAL 0 0 FUNCT 0 0"));;
  g ← group ("add curve with x_coord > "
             +:+ float_str (truediv_int LENGTH 2 - EPS)%float) None;
  add_node_set g (Some "right") (Some cupy.neumann)
    (Some (Text ("NUMDOF 2 ONOFF 0 1 VAL 0 " +:+ float_str (- SHEAR_FORCE)%float
                 +:+ " FUNCT 0 1")));;
  add_element_type (SurfaceOf beam 0) cupy.quad4
    (Some (Text ("KINEM " +:+ KINEMATICS +:+ " EAS none THICK 1 STRESS_STRAIN "
                 +:+ STRESS_STRAIN_MODEL +:+ " GP 2 2")));;
  print_mesh_statistics;;
  when (nth 2 SHOW_STEP false || SHOW_FINAL) (display_in_cubit [cupy.curve]);;
  set_head head;;
  create_dat filename.

(** The [if __name__ == "__main__":] block. *)
Definition main (now : string) : M Utils.Outcome :=
  generate_bending_beam "./hyperelastic_bending_beam.dat";;
  write_readme now "./README.md" OPTIONS.

End Script.
End BendingBeam.

(** ** [examples/block_torsion_3D/generate_block_torsion.py] *)

Module BlockTorsion.
Import Cubit.

Definition LENGTH : Z := 4.
Definition HEIGHT : Z := 1.
Definition DEPTH : Z := 1.
Definition MESH_SIZE : float := 0.1.
Definition EPS : float := 1e-5.
Definition KINEMATICS : string := "nonlinear".
Definition YOUNG : float := 1.33.
Definition POISSON : float := 0.33.
Definition END_ROTATION : Z := 150.
Definition LOAD_STEPS : Z := 50.
Definition SHOW_STEP : list bool := [false; false; false; false].
Definition SHOW_FINAL : bool := true.

Definition OPTIONS : list (string * Value) :=
  [ ("title", VStr "Torsion of a block with non-linear kinematic behavior");
    ("description", VStr "We simulate the torsion of a block by prescribing a Dirichlet BC which increases with the load step.");
    ("geometry", VDict [ ("length", VInt LENGTH); ("height", VInt HEIGHT);
                         ("depth", VInt DEPTH) ]);
    ("mesh", VDict [ ("mesh_size", VFloat MESH_SIZE) ]);
    ("model", VDict [ ("kinematics", VStr KINEMATICS) ]);
    ("material", VDict [ ("constitutive_law", VStr "ELAST_CoupLogNeoHooke");
                         ("youngs_modulus", VFloat YOUNG);
                         ("poisson_ratio", VFloat POISSON) ]);
    ("boundary_conditions", VDict [ ("end_rotation", VInt END_ROTATION);
                                    ("load_steps", VInt LOAD_STEPS) ]) ].

Section Script.
Context {engine : Engine} {fmt : Formatter}.

(** The text assigned to [cubit.head]. *)
Definition head : string :=
  lines
    [ "------------------------------------------------------------------PROBLEM SIZE";
      "    DIM                             3";
      "    ------------------------------------------------------------------PROBLEM TYPE";
      "    PROBLEMTYPE                     Structure";
      "    ----------------------------------------------------------------------------IO";
      "    OUTPUT_BIN                      no";
      "    STRUCT_DISP                     yes";
      "    FILESTEPS                       1000";
      "    VERBOSITY                       Standard";
      "    STRUCT_STRAIN                   gl";
      "    STRUCT_STRESS                   cauchy";
      "    OUTPUT_SPRING                   Yes";
      "    WRITE_INITIAL_STATE             yes";
      "    ---------------------------------------------------------IO/RUNTIME VTK OUTPUT";
      "    OUTPUT_DATA_FORMAT              binary";
      "    INTERVAL_STEPS                  5";
      "    EVERY_ITERATION                 no";
      "    -----------------------------------------------IO/RUNTIME VTK OUTPUT/STRUCTURE";
      "    OUTPUT_STRUCTURE                yes";
      "    DISPLACEMENT                    yes";
      "    ELEMENT_OWNER                   yes";
      "    STRESS_STRAIN                   yes";
      "    ------------------------------------------------------------STRUCTURAL DYNAMIC";
      "    INT_STRATEGY                    Standard";
      "    DYNAMICTYPE                     Statics";
      "    RESULTSEVERY                    5";
      "    RESTARTEVERY                    " +:+ int_str LOAD_STEPS;
      "    TIMESTEP                        " +:+ float_str (1.0 / float_of_int LOAD_STEPS);
      "    NUMSTEP                         " +:+ int_str LOAD_STEPS;
      "    MAXTIME                         1";
      "    PREDICT                         ConstDis";
      "    NORM_RESF                       Rel";
      "    TOLDISP                         1e-7";
      "    TOLRES                          1e-7";
      "    NORMCOMBI_DISPPRES              And";
      "    LINEAR_SOLVER                   1";
      "    NLNSOL                          fullnewton";
      "    MAXITER                         20";
      "    ----------------------------------------------------------------------SOLVER 1";
      "    NAME                            Structure_Solver";
      "    SOLVER                          Superlu";
      "    -----------------------------------------------------------STRUCT NOX/Printing";
      "    Outer Iteration                 = Yes";
      "    Inner Iteration                 = No";
      "    Outer Iteration StatusTest      = Yes";
      "    ---------------------------------------------------------------------MATERIALS";
      "    MAT 1  MAT_ElastHyper NUMMAT 1 MATIDS 10 DENS 1";
      "    MAT 10 ELAST_CoupLogNeoHooke MODE YN C1 " +:+ float_str YOUNG +:+ " C2 " +:+ float_str POISSON;
      "    ------------------------------------------------------------------------FUNCT1";
      "    SYMBOLIC_FUNCTION_OF_SPACE_TIME y*cos(" +:+ float_str (truediv_int (2 * END_ROTATION) 360) +:+ "*pi*t)-z*sin(" +:+ float_str (truediv_int (2 * END_ROTATION) 360) +:+ "*pi*t)-y";
      "    ------------------------------------------------------------------------FUNCT2";
      "    SYMBOLIC_FUNCTION_OF_SPACE_TIME y*sin(" +:+ float_str (truediv_int (2 * END_ROTATION) 360) +:+ "*pi*t)+z*cos(" +:+ float_str (truediv_int (2 * END_ROTATION) 360) +:+ "*pi*t)-z" ].

Definition generate_block (filename : string) : M unit :=
  cmd ("brick x " +:+ int_str LENGTH +:+ " y " +:+ int_str HEIGHT
       +:+ " z " +:+ int_str DEPTH);;
  id ← get_last_id cupy.volume;
  let block := Volume id in
  when (nth 0 SHOW_STEP false) (display_in_cubit []);;
  cmd ("move volume " +:+ int_str (item_id block) +:+ " x "
       +:+ float_str (truediv_int LENGTH 2) +:+ " y 0 z 0 include_merged");;
  when (nth 1 SHOW_STEP false) (display_in_cubit []);;
  cmd ("volume " +:+ int_str (item_id block) +:+ " size " +:+ float_str MESH_SIZE);;
  cmd ("mesh volume " +:+ int_str (item_id block));;
  when (nth 2 SHOW_STEP false) (display_in_cubit []);;
  g ← group ("add surface with x_coord < " +:+ float_str EPS) None;
  add_node_set g (Some "rigid_left") (Some cupy.dirichlet)
    (Some (Text "NUMDOF 3 ONOFF 1 1 1 VAL 0 0 0 FUNCT 0 0 0"));;
  g ← group ("add surface with x_coord > "
             +:+ float_str (float_of_int LENGTH - EPS)%float) None;
  add_node_set g (Some "torsion_right") (Some cupy.dirichlet)
    (Some (Text "NUMDOF 3 ONOFF 1 1 1 VAL 0 1 1 FUNCT 0 1 2"));;
  when (nth 3 SHOW_STEP false || SHOW_FINAL) (display_in_cubit [cupy.surface]);;
  add_element_type (VolumeOf block 0) cupy.hex8
    (Some (Text ("KINEM " +:+ KINEMATICS)));;
  print_mesh_statistics;;
  set_head head;;
  create_dat filename.

(** The [if __name__ == "__main__":] block. *)
Definition main (now : string) : M Utils.Outcome :=
  let path := "./" +:+ KINEMATICS in
  makedirs path;;
  generate_block (path +:+ "/block_torsion.dat");;
  write_readme now (path +:+ "/README.md") OPTIONS.

End Script.
End BlockTorsion.

(** ** [examples/spherical_contact/2D/generate_semicircle.py] *)

Module Semicircle.
Import Cubit.

Definition RADIUS : Z := 1.
Definition H_WIDTH : float := 0.3.
Definition H_HEIGHT : float := 0.4.
Definition H_ARCLOC : float := PrimFloat.sqrt 0.5.
Definition MESH_SIZE_CONTACT : float := 0.02.
Definition MESH_SIZE_COARSE : float := 0.1.
Definition MESH_SIZE_INTERMEDIATE : float :=
  (0.5 * (MESH_SIZE_COARSE + MESH_SIZE_CONTACT) / float_of_int 2)%float.
Definition EPS : float := 1e-5.
Definition KINEMATICS : string := "nonlinear".
Definition YOUNG : float := 1.33.
Definition POISSON : float := 0.33.
Definition PRESSURE : Z := 5.
Definition LOAD_STEPS : Z := 50.
Definition SHOW_STEP : list bool := [false; false; false; false; false].
Definition SHOW_FINAL : bool := true.

Definition OPTIONS : list (string * Value) :=
  [ ("title", VStr "Hertzian-type contact with large deformation");
    ("description", VStr "We simulate a two-dimensional hertzian-type contact problem by subjecting a 2D semicircle to a pressure on its top surface.");
    ("geometry", VDict [ ("radius", VInt RADIUS); ("h_width", VFloat H_WIDTH);
                         ("h_height", VFloat H_HEIGHT); ("h_arcloc", VFloat H_ARCLOC) ]);
    ("mesh", VDict [ ("mesh_size_coarse", VFloat MESH_SIZE_COARSE);
                     ("mesh_size_intermediate", VFloat MESH_SIZE_INTERMEDIATE);
                     ("mesh_size_contact", VFloat MESH_SIZE_CONTACT) ]);
    ("model", VDict [ ("kinematics", VStr KINEMATICS) ]);
    ("material", VDict [ ("constitutive_law", VStr "ELAST_CoupLogNeoHooke");
                         ("youngs_modulus", VFloat YOUNG);
                         ("poisson_ratio", VFloat POISSON) ]);
    ("boundary_conditions", VDict [ ("end_pressure", VInt PRESSURE);
                                    ("load_steps", VInt LOAD_STEPS) ]) ].

Section Script.
Context {engine : Engine} {fmt : Formatter}.

(** [generate_semicircle(filename)]. The body never uses [filename]. *)
Definition generate_semicircle (filename : string) : M unit :=
  cmd "create vertex 0 0 0";;
  cmd ("create vertex " +:+ float_str H_WIDTH +:+ " 0 0");;
  cmd ("create vertex " +:+ int_str RADIUS +:+ " 0 0");;
  cmd ("create vertex " +:+ float_str H_ARCLOC +:+ " "
       +:+ float_str (- H_ARCLOC)%float +:+ " 0");;
  cmd ("create vertex " +:+ float_str (- H_ARCLOC)%float +:+ " "
       +:+ float_str (- H_ARCLOC)%float +:+ " 0");;
  cmd ("create vertex " +:+ int_str (- RADIUS) +:+ " 0 0");;
  cmd ("create vertex " +:+ float_str (- H_WIDTH)%float +:+ " 0 0");;
  cmd ("create vertex " +:+ float_str (-0.75 * H_WIDTH)%float +:+ " "
       +:+ float_str (- H_HEIGHT)%float +:+ " 0");;
  cmd ("create vertex " +:+ float_str (0.75 * H_WIDTH)%float +:+ " "
       +:+ float_str (- H_HEIGHT)%float +:+ " 0");;
  when (nth 0 SHOW_STEP false) (display_in_cubit []);;
  cmd "create curve vertex 2 3";;
  cmd ("create curve arc center vertex 1 3 4 radius " +:+ int_str RADIUS);;
  cmd ("create curve arc center vertex 1 4 5 radius " +:+ int_str RADIUS);;
  cmd ("create curve arc center vertex 1 5 6 radius " +:+ int_str RADIUS);;
  cmd "create curve vertex 6 7";;
  cmd "create curve vertex 7 2";;
  cmd "create curve vertex 4 9";;
  cmd "create curve vertex 9 2";;
  cmd "create curve vertex 5 8";;
  cmd "create curve vertex 8 7";;
  cmd "create curve vertex 8 9";;
  when (nth 1 SHOW_STEP false) (display_in_cubit []);;
  cmd "create surface curve 1 2 7 8";;
  cmd "create surface curve 7 3 9 11";;
  cmd "create surface curve 10 9 4 5";;
  cmd "create surface curve 6 8 11 10";;
  group "add surface 1 2 3 4" (Some "semicircle");;
  cmd "imprint all";;
  cmd "merge all";;
  let thickness := (0.1 * float_of_int RADIUS)%float in
  cmd ("create surface rectangle width " +:+ int_str (2 * RADIUS)
       +:+ " height " +:+ float_str thickness +:+ " zplane");;
  rigid_id ← get_last_id cupy.surface;
  cmd ("move surface " +:+ int_str rigid_id +:+ " x 0 y "
       +:+ float_str (float_of_int (- RADIUS) - 0.5 * thickness)%float
       +:+ " z include_merged");;
  group "add surface 5" (Some "obstacle");;
  when (nth 2 SHOW_STEP false) (display_in_cubit []);;
  cmd ("curve 8  scheme bias fine size " +:+ float_str MESH_SIZE_INTERMEDIATE
       +:+ " coarse size " +:+ float_str MESH_SIZE_COARSE +:+ " start vertex 9");;
  cmd ("curve 10 scheme bias fine size " +:+ float_str MESH_SIZE_INTERMEDIATE
       +:+ " coarse size " +:+ float_str MESH_SIZE_COARSE +:+ " start vertex 8");;
  cmd ("curve 7  scheme bias fine size " +:+ float_str MESH_SIZE_CONTACT
       +:+ " coarse size " +:+ float_str MESH_SIZE_INTERMEDIATE +:+ " start vertex 4");;
  cmd ("curve 9  scheme bias fine size " +:+ float_str MESH_SIZE_CONTACT
       +:+ " coarse size " +:+ float_str MESH_SIZE_INTERMEDIATE +:+ " start vertex 5");;
  cmd ("curve 3  scheme bias fine size " +:+ float_str MESH_SIZE_CONTACT
       +:+ " factor 1.0 ");;
  cmd ("surface " +:+ int_str rigid_id +:+ " size " +:+ int_str (2 * RADIUS));;
  cmd "mesh surface all";;
  when (nth 3 SHOW_STEP false) (display_in_cubit []);;
  g ← group ("add curve with " +:+ float_str (- EPS)%float
             +:+ " < y_coord and y_coord < " +:+ float_str EPS) None;
  add_node_set g (Some "top_boundary_neumann") (Some cupy.neumann)
    (Some (Mapping [ ("NUMDOF", DInt 2); ("ONOFF", DInts [0; 1]);
                     ("VAL", DInts [0; - PRESSURE]); ("FUNCT", DInts [0; 1]) ]));;
  g ← group ("add curve with y_coord < " +:+ float_str (- H_ARCLOC + EPS)%float) None;
  add_node_set g (Some "bottom_boundary_contact")
    (Some cupy.solid_to_solid_curve_contact)
    (Some (Mapping [ ("InterfaceID", DInt 1); ("Side", DStr "Slave");
                     ("Initialization", DStr "Inactive") ]));;
  g ← group "add surface in semicircle" None;
  add_element_type g cupy.quad4 (Some (Mapping [ ("KINEM", DStr KINEMATICS) ]));;
  g ← group "add surface in obstacle" None;
  add_element_type g cupy.quad4 (Some (Mapping [ ("KINEM", DStr KINEMATICS) ]));;
  print_mesh_statistics;;
  when (nth 4 SHOW_STEP false || SHOW_FINAL) (display_in_cubit []).

(** The [if __name__ == "__main__":] block. *)
Definition main (now : string) : M Utils.Outcome :=
  let path := "./" +:+ KINEMATICS in
  makedirs path;;
  generate_semicircle (path +:+ "/hertzian_contact.yaml");;
  write_readme now (path +:+ "/README.md") OPTIONS.

End Script.
End Semicircle.

(** ** Reading a trace *)

Module Trace.
Import Cubit.

(** The stages a generator script goes through. *)
Inductive Phase : Type := Geometry | Meshing | Tagging | Emission.

Definition rank (p : Phase) : nat :=
  match p with Geometry => 0 | Meshing => 1 | Tagging => 2 | Emission => 3 end.

(** The stage of a meshing command, by its leading word: [create], [brick],
    [move], [imprint] and [merge] build geometry; [mesh] meshes, and
    [surface], [volume] and [curve] set the mesh size or scheme of an
    entity. *)
Definition command_phase (command : string) : option Phase :=
  if startswith command "create " || startswith command "brick "
     || startswith command "move " || startswith command "imprint "
     || startswith command "merge "
  then Some Geometry
  else if startswith command "mesh " || startswith command "surface "
          || startswith command "volume " || startswith command "curve "
  then Some Meshing
  else None.

(** The stage of an effect. Node sets and element blocks tag the mesh;
    the head text, the input file and the README are the emission.
    A group only selects entities, and becomes a tag when a node set or an
    element block is made of it; groups, displays and directories belong
    to no stage. *)
Definition phase (e : Effect) : option Phase :=
  match e with
  | Session (Cmd command) => command_phase command
  | Session (AddNodeSet _ _ _ _) | Session (AddElementType _ _ _) => Some Tagging
  | Session (SetHead _) | Session (CreateDat _) | Open _ => Some Emission
  | Session (MakeGroup _ _) | Session (DisplayInCubit _) => None
  | Makedirs _ => None
  end.

Definition phases (t : list Effect) : list Phase := omap phase t.

(** Every [cubit.cmd] of the trace has a stage. *)
Definition commands_staged (t : list Effect) : Prop :=
  Forall (fun e => match e with
                   | Session (Cmd command) => is_Some (command_phase command)
                   | _ => True
                   end) t.

Definition is_session (e : Effect) : bool :=
  match e with Session _ => true | _ => false end.

(** What happens after the session has written its input file: the
    effects behind the first [create_dat], none if there is no such call. *)
Fixpoint after_dat (t : list Effect) : list Effect :=
  match t with
  | [] => []
  | Session (CreateDat _) :: t => t
  | _ :: t => after_dat t
  end.

(** The files the session is told to write. *)
Fixpoint dat_files (t : list Effect) : list string :=
  match t with
  | [] => []
  | Session (CreateDat filename) :: t => filename :: dat_files t
  | _ :: t => dat_files t
  end.

(** The files the script itself opens for writing. *)
Fixpoint opened (t : list Effect) : list string :=
  match t with
  | [] => []
  | Open path :: t => path :: opened t
  | _ :: t => opened t
  end.

(** The node sets added, with the arguments given. *)
Fixpoint node_sets (t : list Effect) : list Call :=
  match t with
  | [] => []
  | Session (AddNodeSet item name bc d) :: t => AddNodeSet item name bc d :: node_sets t
  | _ :: t => node_sets t
  end.

(** A node set created with a non-empty name, a boundary-condition type
    that is Dirichlet, Neumann or contact, and a description. *)
Definition named_bc_set (c : Call) : Prop :=
  match c with
  | AddNodeSet _ (Some name) (Some bc) (Some _) =>
      name <> ""
      /\ (bc = cupy.dirichlet \/ bc = cupy.neumann
          \/ bc = cupy.solid_to_solid_curve_contact)
  | _ => False
  end.

(** The name a node set was given. *)
Definition node_set_name (c : Call) : option string :=
  match c with AddNodeSet _ name _ _ => name | _ => None end.

(** A trace in stages: the stages never go back, every command has a
    stage, and nothing is asked of the session once it has written its
    input file. *)
Definition staged (t : list Effect) : Prop :=
  StronglySorted le (map rank (phases t))
  /\ commands_staged t
  /\ Forall (fun e => is_session e = false) (after_dat t).

End Trace.

(** ** The functions the [femref] package defines *)

Module Femref.

(** [def]s of [src/femref/cubit_utils.py]. *)
Definition cubit_utils_functions : list string :=
  ["cubit_cmd"; "print_mesh_statistics"].

(** [def]s of [src/femref/utils.py]. *)
Definition utils_functions : list string := ["write_readme"].

Definition shared_functions : list string :=
  cubit_utils_functions ++ utils_functions.

End Femref.

(** ** A small concrete engine

    Ids are handed out by counting calls; the input file is the head text
    followed by the number of calls. *)

Module ToyEngine.
Import Cubit.

Definition head_of (h : list Call) : string :=
  fold_left (fun acc c => match c with SetHead text => text | _ => acc end) h "".

Definition toy_engine : Engine := {|
  last_id := fun _ h => Z.of_nat (length h);
  group_id := fun h => Z.of_nat (length h);
  entity_list := fun track_id _ h =>
    if String.eqb track_id "nodeset" then
      map Z.of_nat (seq 1 (length (List.filter (fun c => match c with AddNodeSet _ _ _ _ => true | _ => false end) h)))
    else [];
  node_count := fun h => 100;
  element_count := fun h => 81;
  nodeset_node_count := fun nsid h => 10 + nsid;
  dat_text := fun h => head_of h +:+ nl +:+ int_str (Z.of_nat (length h))
|}.

End ToyEngine.

(** ** Sample inputs *)

(** Sample inputs: a formatter, an options dictionary with two nested
    dictionaries and a plain entry, and two without a header key. *)
Definition sample_formatter : Formatter :=
  {| float_str := fun _ => "0.1"; dict_str := fun _ => "{...}" |}.

Definition sample_options : list (string * Value) :=
  [ ("title", VStr "Beam");
    ("description", VStr "A bending beam.");
    ("revision", VInt 7);
    ("geometry", VDict [("length", VInt 20); ("height", VInt 2)]);
    ("mesh", VDict [("mesh_size", VFloat 0.1%float)]) ].

Definition options_without_title : list (string * Value) :=
  [ ("description", VStr "A bending beam.");
    ("mesh", VDict [("mesh_size", VFloat 0.1%float)]) ].

Definition options_without_description : list (string * Value) :=
  [ ("title", VStr "Beam"); ("revision", VInt 7) ].

(** ** A small concrete session

    Volumes are numbered in creation order; ["brick"] creates one volume,
    ["split"] creates two, ["delete"] removes the newest one, and every
    other command leaves the volumes alone. Only volumes are tracked. *)

Module Toy.
Import CubitUtils.

Record session := { volumes : list Z; next_id : Z }.

Definition fresh : session := {| volumes := []; next_id := 1 |}.

Definition toy_cmd (command : string) (s : session) : session :=
    if String.eqb command "brick" then
      {| volumes := next_id s :: volumes s; next_id := next_id s + 1 |}
    else if String.eqb command "split" then
      {| volumes := next_id s :: (next_id s + 1) :: volumes s;
         next_id := next_id s + 2 |}
    else if String.eqb command "delete" then
      {| volumes := tl (volumes s); next_id := next_id s |}
    else s.

#[global] Instance toy_session : CubitSession session := {
    cmd := toy_cmd;
    parse_cubit_list track_id _ s :=
      if String.eqb track_id "volume" then volumes s else [];
    get_node_count _ := 0;
    get_element_count _ := 0;
    get_nodeset_node_count _ _ := 0
  }.

Definition one_brick : session := toy_cmd "brick" fresh.

(** The ids of a set in the order of [elements]. *)
#[global] Instance toy_py_set : PySet := {
  list_of_set := elements;
  list_of_set_enumerates := fun s => Permutation_refl (elements s)
}.
End Toy.

(** A disk with the directory [out], and one with no directory. *)
Definition sample_disk : Os.Disk := {| Os.directories := {[ "out" ]} |}.

Definition no_dirs : Os.Disk := {| Os.directories := ∅ |}.

(** ** More readings of a trace *)

Module Observe.
Import Cubit.

(** The element blocks added, with the arguments given. *)
Fixpoint element_blocks (t : list Effect) : list Call :=
  match t with
  | [] => []
  | Session (AddElementType item el d) :: t => AddElementType item el d :: element_blocks t
  | _ :: t => element_blocks t
  end.

(** The element type of a block. *)
Definition block_type (c : Call) : option cupy.element_type :=
  match c with AddElementType _ el _ => Some el | _ => None end.

(** An element block whose description carries [KINEM <kinematics>]: as
    the leading words of a text, or under the key ["KINEM"] of a
    dictionary. *)
Definition carries_kinematics (kinematics : string) (c : Call) : Prop :=
  match c with
  | AddElementType _ _ (Some (Text s)) => startswith s ("KINEM " +:+ kinematics) = true
  | AddElementType _ _ (Some (Mapping d)) => dict_get "KINEM" d = Some (DStr kinematics)
  | _ => False
  end.

(** What follows the first element block. *)
Fixpoint after_element_block (t : list Effect) : list Effect :=
  match t with
  | [] => []
  | Session (AddElementType _ _ _) :: t => t
  | _ :: t => after_element_block t
  end.

(** The label lists of the [display_in_cubit] calls. *)
Fixpoint displays (t : list Effect) : list (list cupy.geometry) :=
  match t with
  | [] => []
  | Session (DisplayInCubit labels) :: t => labels :: displays t
  | _ :: t => displays t
  end.

(** The directories made. *)
Fixpoint made_dirs (t : list Effect) : list string :=
  match t with
  | [] => []
  | Makedirs path :: t => path :: made_dirs t
  | _ :: t => made_dirs t
  end.

(** The paths written, by the session or by the script, in order. *)
Fixpoint written (t : list Effect) : list string :=
  match t with
  | [] => []
  | Session (CreateDat filename) :: t => filename :: written t
  | Open path :: t => path :: written t
  | _ :: t => written t
  end.

(** Every node set of [rest] is made of the group that the call right
    before it created; [before] holds the calls made earlier. *)
Fixpoint fresh_groups `{Engine} (before rest : list Call) : Prop :=
  match rest with
  | [] => True
  | AddNodeSet item _ _ _ as c :: rest' =>
      match reverse before with
      | MakeGroup _ _ :: _ => item = Group (group_id before)
      | _ => False
      end
      /\ fresh_groups (before ++ [c]) rest'
  | c :: rest' => fresh_groups (before ++ [c]) rest'
  end.

(** The number of node sets added by the calls [h]. *)
Definition node_set_count (h : list Call) : nat :=
  length (List.filter (fun c => match c with AddNodeSet _ _ _ _ => true | _ => false end) h).

(** An engine whose list of node sets has one id per node set added. *)
Definition lists_node_sets (engine : Engine) : Prop :=
  forall h, length (entity_list "nodeset" "all" h) = node_set_count h.

End Observe.

(** Options with a header and no nested dictionary. *)
Definition plain_options : list (string * Value) :=
  [ ("title", VStr "Beam");
    ("description", VStr "A bending beam.");
    ("revision", VInt 7) ].

(** ** Properties of [cubit_cmd] *)

Section CubitCmdFacts.
Import CubitUtils.
Context {S : Type} {session_ops : CubitSession S} {py_set : PySet}.

Lemma list_of_set_to_set (s : gset Z) : list_to_set (list_of_set s) = s.
Proof.
  apply set_eq. intros id.
  by rewrite elem_of_list_to_set, list_of_set_enumerates, elem_of_elements.
Qed.

Lemma list_of_set_NoDup (s : gset Z) : NoDup (list_of_set s).
Proof. rewrite list_of_set_enumerates. apply NoDup_elements. Qed.

Lemma list_of_set_length (s : gset Z) : length (list_of_set s) = size s.
Proof. by rewrite list_of_set_enumerates. Qed.

Lemma cubit_cmd_session command (cubit : S) track_id flatten :
  (cubit_cmd command cubit track_id flatten).1 = cmd command cubit.
Proof.
  unfold cubit_cmd.
  destruct (list_of_set _) as [|id [|id' l]]; [done| |done].
  by destruct flatten.
Qed.

Lemma cubit_cmd_ids command (cubit : S) track_id flatten :
  ids_of (cubit_cmd command cubit track_id flatten).2
  = tracked track_id (cmd command cubit) ∖ tracked track_id cubit.
Proof.
  unfold cubit_cmd.
  set (new := _ ∖ _).
  rewrite <- (list_of_set_to_set new) at 2.
  destruct (list_of_set new) as [|id [|id' l]]; [done| |done].
  destruct flatten; simpl; [|done].
  by rewrite (right_id_L ∅ (∪)).
Qed.

Lemma cubit_cmd_many command (cubit : S) track_id flatten ids :
  (cubit_cmd command cubit track_id flatten).2 = Many ids ->
  ids = list_of_set (tracked track_id (cmd command cubit) ∖ tracked track_id cubit).
Proof.
  unfold cubit_cmd.
  destruct (list_of_set _) as [|id [|id' l]]; simpl; [congruence| |congruence].
  destruct flatten; simpl; congruence.
Qed.

Lemma cubit_cmd_flat command (cubit : S) track_id :
  is_one (cubit_cmd command cubit track_id true).2 = true <->
  size (tracked track_id (cmd command cubit) ∖ tracked track_id cubit) = 1%nat.
Proof.
  rewrite <- list_of_set_length. unfold cubit_cmd.
  destruct (list_of_set _) as [|id [|id' l]]; simpl; split; congruence.
Qed.

(** The list returned without flattening, and with flattening when it is
    not a single id. *)
Lemma cubit_cmd_list command (cubit : S) track_id :
  let new := tracked track_id (cmd command cubit) ∖ tracked track_id cubit in
  (cubit_cmd command cubit track_id false).2 = Many (list_of_set new)
  /\ (size new <> 1%nat ->
      (cubit_cmd command cubit track_id true).2 = Many (list_of_set new)).
Proof.
  cbv zeta. rewrite <- list_of_set_length. unfold cubit_cmd.
  destruct (list_of_set _) as [|id [|id' l]]; simpl; split; congruence.
Qed.

(** C2. Whatever the command, the session and the tracked entity type,
    the ids [cubit_cmd] returns are exactly the tracked ids present after
    the command minus those present before it: each returned id exists
    after and not before, and an id that existed before (also one whose
    entity the command deleted) is not returned. A returned list holds no
    id twice, and the session handed back is the one after the command. *)
Theorem cubit_cmd_returns_set_difference
    (command : string) (cubit : S) (track_id : string) (flatten : bool) :
  let r := cubit_cmd command cubit track_id flatten in
  let before := tracked track_id cubit in
  let after := tracked track_id (cmd command cubit) in
  r.1 = cmd command cubit
  /\ ids_of r.2 = after ∖ before
  /\ (forall id, id ∈ ids_of r.2 <-> id ∈ after /\ id ∉ before)
  /\ (forall id, id ∈ before -> id ∉ ids_of r.2)
  /\ (forall ids, r.2 = Many ids -> NoDup ids).
Proof.
  cbv zeta. split; [apply cubit_cmd_session|].
  rewrite cubit_cmd_ids. split; [done|].
  split; [intros id; apply elem_of_difference|].
  split.
  - intros id Hin Hret. by apply elem_of_difference in Hret as [? ?].
  - intros ids Hids. apply cubit_cmd_many in Hids as ->. apply list_of_set_NoDup.
Qed.

(** C7. With [flatten_if_possible=True] the result is a single id exactly
    when the command created exactly one new tracked entity, and that id
    is the new one; with zero or with several new entities it is a list
    of the new ids, each once (the empty list for zero). With
    [flatten_if_possible=False] it is always a list of the new ids, each
    once, however many there are. The order of the list is Python's and
    is left open. *)
Theorem cubit_cmd_flatten
    (command : string) (cubit : S) (track_id : string) :
  let new := tracked track_id (cmd command cubit) ∖ tracked track_id cubit in
  let flat := (cubit_cmd command cubit track_id true).2 in
  (is_one flat = true <-> size new = 1%nat)
  /\ (forall id, flat = One id -> new = {[ id ]})
  /\ (size new <> 1%nat ->
      exists ids, flat = Many ids /\ NoDup ids /\ list_to_set ids = new)
  /\ (size new = 0%nat -> flat = Many [])
  /\ (exists ids, (cubit_cmd command cubit track_id false).2 = Many ids
                  /\ NoDup ids /\ list_to_set ids = new).
Proof.
  cbv zeta. split; [apply cubit_cmd_flat|].
  split.
  { intros id Hid. rewrite <- cubit_cmd_ids with (flatten := true).
    by rewrite Hid. }
  destruct (cubit_cmd_list command cubit track_id) as [Hfalse Htrue].
  split; [|split].
  - intros Hsize. eexists. split; [by apply Htrue|].
    split; [apply list_of_set_NoDup|apply list_of_set_to_set].
  - intros Hsize. rewrite Htrue by lia.
    apply size_empty_inv, leibniz_equiv in Hsize. rewrite Hsize.
    pose proof (list_of_set_length ∅) as Hlen. rewrite size_empty in Hlen.
    by destruct (list_of_set ∅).
  - eexists. split; [exact Hfalse|].
    split; [apply list_of_set_NoDup|apply list_of_set_to_set].
Qed.

End CubitCmdFacts.

(** Flattening on the small session: the first ["brick"] gives the single
    id [1], ["split"] gives a list of the two new ids, and an unknown
    command gives the empty list. *)
Lemma cubit_cmd_flatten_witness :
  (CubitUtils.cubit_cmd "brick" Toy.fresh "volume" true).2 = CubitUtils.One 1
  /\ (exists ids,
         (CubitUtils.cubit_cmd "split" Toy.one_brick "volume" true).2
         = CubitUtils.Many ids
         /\ NoDup ids
         /\ list_to_set ids
            = CubitUtils.tracked "volume" (CubitUtils.cmd "split" Toy.one_brick)
              ∖ CubitUtils.tracked "volume" Toy.one_brick)
  /\ (CubitUtils.cubit_cmd "list" Toy.one_brick "volume" true).2 = CubitUtils.Many [].
Proof.
  split; [vm_compute; reflexivity|].
  split.
  - apply (proj1 (proj2 (proj2 (cubit_cmd_flatten "split" Toy.one_brick "volume")))).
    vm_compute. discriminate.
  - apply (proj1 (proj2 (proj2 (proj2 (cubit_cmd_flatten "list" Toy.one_brick "volume"))))).
    vm_compute. reflexivity.
Defined.

(** The returned ids on the small session: ["delete"] removes volume [1],
    which existed before, and returns nothing; a second ["brick"] returns
    only the new id [2]. *)
Lemma cubit_cmd_returns_set_difference_witness :
  (1 ∈ CubitUtils.tracked "volume" Toy.one_brick ->
   1 ∉ CubitUtils.ids_of (CubitUtils.cubit_cmd "delete" Toy.one_brick "volume" true).2)
  /\ CubitUtils.ids_of (CubitUtils.cubit_cmd "brick" Toy.one_brick "volume" true).2
     = CubitUtils.tracked "volume" (CubitUtils.cmd "brick" Toy.one_brick)
       ∖ CubitUtils.tracked "volume" Toy.one_brick
  /\ (CubitUtils.cubit_cmd "brick" Toy.one_brick "volume" true).2 = CubitUtils.One 2.
Proof.
  split.
  - exact (proj1 (proj2 (proj2 (proj2
      (cubit_cmd_returns_set_difference "delete" Toy.one_brick "volume" true)))) 1).
  - split.
    + exact (proj1 (proj2
        (cubit_cmd_returns_set_difference "brick" Toy.one_brick "volume" true))).
    + vm_compute. reflexivity.
Defined.

(** ** Strings: the facts the README proofs need *)

Example int_str_examples :
  int_str 0 = "0" /\ int_str 20 = "20" /\ int_str (-5) = "-5".
Proof. repeat split; reflexivity. Qed.

Example endswith_examples :
  endswith "./README.md" "README.md" = true
  /\ endswith "MYREADME.md" "README.md" = true
  /\ endswith "./nonlinear" "README.md" = false
  /\ endswith "md" "README.md" = false.
Proof. repeat split; reflexivity. Qed.

Example startswith_examples :
  startswith "mesh surface all" "mesh " = true
  /\ startswith "merge all" "mesh " = false
  /\ startswith "me" "mesh " = false.
Proof. repeat split; reflexivity. Qed.

Example dirname_examples :
  Os.dirname "./nonlinear/README.md" = "./nonlinear"
  /\ Os.dirname "./README.md" = "."
  /\ Os.dirname "README.md" = ""
  /\ Os.dirname "/README.md" = "/"
  /\ Os.dirname "out//README.md" = "out"
  /\ Os.ancestors "./a/b" = ["./a"; "."].
Proof. repeat split; reflexivity. Qed.

Example can_open_examples :
  Os.can_open (disk := no_dirs) "./README.md" = true
  /\ Os.can_open (disk := no_dirs) "README.md" = true
  /\ Os.can_open (disk := no_dirs) "missing/README.md" = false
  /\ Os.can_open (disk := sample_disk) "out/README.md" = true
  /\ Os.can_open (disk := {| Os.directories := Os.makedirs "./nonlinear" ∅ |})
       "./nonlinear/README.md" = true.
Proof. repeat split; vm_compute; reflexivity. Qed.

Lemma append_nil_r (s : string) : s +:+ "" = s.
Proof.
  induction s as [|c s IH]; [done|].
  change (String c (s +:+ "") = String c s). by rewrite IH.
Qed.

Lemma append_assoc (a b c : string) : (a +:+ b) +:+ c = a +:+ b +:+ c.
Proof.
  induction a as [|x a IH]; [done|].
  change (String x ((a +:+ b) +:+ c) = String x (a +:+ b +:+ c)). by rewrite IH.
Qed.

Lemma length_append (a b : string) :
  String.length (a +:+ b) = (String.length a + String.length b)%nat.
Proof.
  induction a as [|x a IH]; [done|].
  change (S (String.length (a +:+ b)) = S (String.length a + String.length b)).
  by rewrite IH.
Qed.

Lemma substring_all (b : string) : substring 0 (String.length b) b = b.
Proof. induction b as [|x b IH]; [done|]. cbn [String.length substring]. by rewrite IH. Qed.

Lemma substring_append_r (a b : string) :
  substring (String.length a) (String.length b) (a +:+ b) = b.
Proof.
  induction a as [|x a IH]; [apply substring_all|].
  exact IH.
Qed.

Lemma endswith_append (a b : string) : endswith (a +:+ b) b = true.
Proof.
  unfold endswith. rewrite length_append.
  replace (String.length a + String.length b - String.length b)%nat
    with (String.length a) by lia.
  rewrite substring_append_r, String.eqb_refl, andb_true_r.
  apply Nat.leb_le. lia.
Qed.

Lemma join_app (xs ys : list string) :
  Utils.join (xs ++ ys) = Utils.join xs +:+ Utils.join ys.
Proof.
  induction xs as [|x xs IH]; [done|].
  change (x +:+ Utils.join (xs ++ ys) = (x +:+ Utils.join xs) +:+ Utils.join ys).
  by rewrite IH, append_assoc.
Qed.

(** ** Properties of [write_readme] *)

Section ReadmeFacts.
Import Utils.
Context {fmt : Formatter} {disk : Os.Disk}.

Lemma write_rows_join value f :
  write_rows value f = f +:+ join (map row_text value).
Proof.
  revert f. induction value as [|pv value IH]; intros f.
  - symmetry. apply append_nil_r.
  - change (write_rows (pv :: value) f) with (write_rows value (write f (row_text pv))).
    rewrite IH. unfold write. apply append_assoc.
Qed.

Lemma write_parameters_join options f :
  write_parameters options f = f +:+ join (map section_text (dict_entries options)).
Proof.
  revert f. induction options as [|[key v] options IH]; intros f.
  - symmetry. apply append_nil_r.
  - destruct v as [n|x|s|value];
      try (change (write_parameters ((key, _) :: options) f)
             with (write_parameters options f); apply IH).
    change (write_parameters ((key, VDict value) :: options) f)
      with (write_parameters options
              (write (write_rows value
                        (write (write f ("## " +:+ key +:+ nl))
                               ("| Parameter | Value |" +:+ nl +:+ "|:--|:--|" +:+ nl)))
                     (nl +:+ nl))).
    rewrite IH, write_rows_join. unfold write.
    change (dict_entries ((key, VDict value) :: options))
      with ((key, value) :: dict_entries options).
    change (join (map section_text ((key, value) :: dict_entries options)))
      with (section_text (key, value) +:+ join (map section_text (dict_entries options))).
    unfold section_text. cbn [fst snd].
    by rewrite !append_assoc.
Qed.

Lemma rows_are_rows value : Forall2 is_row (map row_text value) value.
Proof. induction value; constructor; done. Qed.

Lemma sections_are_sections entries :
  Forall2 is_section (map section_text entries) entries.
Proof.
  induction entries as [|kv entries IH]; constructor; [|done].
  exists (map row_text kv.2). split; [done|apply rows_are_rows].
Qed.

Lemma dict_get_reaches key options :
  key = "title" \/ key = "description" ->
  dict_get key (List.filter reaches_readme options) = dict_get key options.
Proof.
  intros Hkey. induction options as [|[k v] options IH]; [done|].
  cbn [List.filter dict_get]. unfold reaches_readme at 1. cbn [fst snd].
  destruct (String.eqb_spec k key) as [->|Hne].
  - assert (has_items v || String.eqb key "title" || String.eqb key "description" = true)
      as ->.
    { destruct Hkey as [-> | ->]; [|apply orb_true_r].
      by rewrite orb_true_r. }
    cbn [dict_get]. by rewrite String.eqb_refl.
  - destruct (_ || _ || _); [|done].
    cbn [dict_get]. by destruct (String.eqb_spec k key).
Qed.

Lemma dict_entries_reaches options :
  dict_entries (List.filter reaches_readme options) = dict_entries options.
Proof.
  induction options as [|[k v] options IH]; [done|].
  cbn [List.filter]. unfold reaches_readme at 1. cbn [fst snd].
  destruct v as [n|x|s|value]; cbn [has_items orb].
  1-3: destruct (_ || _); cbn [dict_entries]; exact IH.
  cbn [dict_entries]. by rewrite IH.
Qed.

Lemma write_readme_unopened filepath options now (fs : FS) :
  Os.can_open (readme_path filepath) = false ->
  write_readme filepath options now fs = (fs, FileNotFoundError (readme_path filepath)).
Proof. intros Hopen. unfold write_readme. by rewrite Hopen. Qed.

Lemma write_readme_creates filepath options now (fs : FS) :
  Os.can_open (readme_path filepath) = true ->
  is_Some ((write_readme filepath options now fs).1 !! readme_path filepath).
Proof.
  intros Hopen. unfold write_readme. rewrite Hopen. cbn [negb].
  destruct (dict_get "title" options), (dict_get "description" options);
    cbn [fst]; rewrite lookup_insert_eq; by eexists.
Qed.

Lemma write_readme_untouched filepath options now (fs : FS) p :
  p <> readme_path filepath ->
  (write_readme filepath options now fs).1 !! p = fs !! p.
Proof.
  intros Hp. unfold write_readme.
  destruct (Os.can_open (readme_path filepath)); cbn [negb fst]; [|done].
  destruct (dict_get "title" options), (dict_get "description" options);
    cbn [fst]; by rewrite ?lookup_insert_ne by done.
Qed.


End ReadmeFacts.

Section ReadmeTheorems.
Import Utils.
Context {fmt : Formatter} {disk : Os.Disk}.

(** C3. When [options] has a ['title'] and a ['description'] key and the
    file can be opened, [write_readme] returns normally and the file it
    writes begins with the [# <title>] header and the description; then
    comes, for each entry of [options] whose value is itself a dictionary
    and in iteration order, one [## <key>] section with the
    [| Parameter | Value |] table holding exactly one row per key-value
    pair of that dictionary, in that dictionary's order; the
    [Last updated] line closes the file. *)
Theorem write_readme_layout
    (filepath : string) (options : list (string * Value)) (now : string) (fs : FS)
    (title description : Value) :
  Os.can_open (readme_path filepath) = true ->
  dict_get "title" options = Some title ->
  dict_get "description" options = Some description ->
  let r := write_readme filepath options now fs in
  r.2 = Returned
  /\ exists sections,
       r.1 !! readme_path filepath
       = Some ("# " +:+ str title +:+ nl +:+ nl
               +:+ str description +:+ nl +:+ nl +:+ nl
               +:+ join sections
               +:+ "Last updated: " +:+ now +:+ nl)
       /\ Forall2 is_section sections (dict_entries options).
Proof.
  intros Hopen Ht Hd. cbv zeta. unfold write_readme.
  rewrite Hopen, Ht, Hd. cbn [negb fst snd].
  split; [done|].
  exists (map section_text (dict_entries options)).
  split; [|apply sections_are_sections].
  rewrite lookup_insert_eq. f_equal.
  rewrite write_parameters_join. unfold write.
  change ("" +:+ ?x) with x.
  by rewrite !append_assoc.
Qed.

(** C8. The file is opened before [options] is looked at. Once it is
    open: without a ['title'] key [write_readme] raises
    [KeyError('title')] and leaves an empty file behind; with a title but
    without a ['description'] key it raises [KeyError('description')] and
    leaves the file with the header line only. When the file cannot be
    opened, [FileNotFoundError] is raised whatever the keys, and no file
    is left. For every [options], the outcome and the file written are the
    same as for [options] with all entries dropped whose value is not a
    dictionary and whose key is neither ['title'] nor ['description']:
    such entries have no part in the README. *)
Theorem write_readme_key_error
    (filepath : string) (options : list (string * Value)) (now : string) (fs : FS) :
  let r := write_readme filepath options now fs in
  (Os.can_open (readme_path filepath) = true ->
   (dict_get "title" options = None ->
    r.2 = KeyError "title" /\ r.1 !! readme_path filepath = Some "")
   /\ (forall title,
         dict_get "title" options = Some title ->
         dict_get "description" options = None ->
         r.2 = KeyError "description"
         /\ r.1 !! readme_path filepath = Some ("# " +:+ str title +:+ nl +:+ nl))
   /\ (dict_get "title" options = None \/ dict_get "description" options = None ->
       exists key, r.2 = KeyError key))
  /\ (Os.can_open (readme_path filepath) = false ->
      r = (fs, FileNotFoundError (readme_path filepath)))
  /\ r = write_readme filepath (List.filter reaches_readme options) now fs.
Proof.
  cbv zeta. split; [|split].
  - intros Hopen. unfold write_readme. rewrite Hopen. cbn [negb].
    destruct (dict_get "title" options) as [title|];
      destruct (dict_get "description" options) as [description|]; cbn [fst snd];
      repeat split; try congruence; try (by rewrite lookup_insert_eq);
      try (intros; by eexists).
    + intros [?|?]; congruence.
    + simplify_eq. by rewrite lookup_insert_eq.
  - apply write_readme_unopened.
  - unfold write_readme.
    destruct (Os.can_open (readme_path filepath)); cbn [negb]; [|done].
    rewrite !dict_get_reaches by auto.
    destruct (dict_get "title" options) as [title|];
      destruct (dict_get "description" options) as [description|]; [|done..].
    by rewrite !write_parameters_join, dict_entries_reaches.
Qed.

(** C9. The file [write_readme] opens is at a path ending in [README.md]:
    a [filepath] that does not end in [README.md] gets [/README.md]
    appended before the file is opened, any other is used as it is. No
    other path of the file system is touched. When the file can be opened
    it exists afterwards, whatever the keys of [options]; when it cannot,
    [FileNotFoundError] is raised for that path and the file system stays
    as it was. *)
Theorem write_readme_path
    (filepath : string) (options : list (string * Value)) (now : string) (fs : FS) :
  let r := write_readme filepath options now fs in
  endswith (readme_path filepath) "README.md" = true
  /\ (endswith filepath "README.md" = false ->
      readme_path filepath = filepath +:+ "/README.md")
  /\ (endswith filepath "README.md" = true -> readme_path filepath = filepath)
  /\ (forall p, p <> readme_path filepath -> r.1 !! p = fs !! p)
  /\ (Os.can_open (readme_path filepath) = true ->
      is_Some (r.1 !! readme_path filepath))
  /\ (Os.can_open (readme_path filepath) = false ->
      r = (fs, FileNotFoundError (readme_path filepath))).
Proof.
  cbv zeta. split.
  { unfold readme_path. destruct (endswith filepath "README.md") eqn:E; [done|].
    cbn [negb]. change "/README.md" with ("/" +:+ "README.md").
    rewrite <- append_assoc. apply endswith_append. }
  unfold readme_path at 1 2. split; [by intros ->|]. split; [by intros ->|].
  split; [intros p Hp; by apply write_readme_untouched|].
  split; [apply write_readme_creates|apply write_readme_unopened].
Qed.

End ReadmeTheorems.

(** The layout at [sample_options], in the directory [out]. *)
Lemma write_readme_layout_witness :
  Os.can_open (disk := sample_disk) (Utils.readme_path "out") = true
  /\ dict_get "title" sample_options = Some (VStr "Beam")
  /\ dict_get "description" sample_options = Some (VStr "A bending beam.")
  /\ (Utils.write_readme (fmt := sample_formatter) (disk := sample_disk)
        "out" sample_options "today" ∅).2
     = Utils.Returned.
Proof.
  split; [reflexivity|]. split; [reflexivity|]. split; [reflexivity|].
  exact (proj1 (write_readme_layout (fmt := sample_formatter) (disk := sample_disk)
                  "out" sample_options "today" ∅
                  (VStr "Beam") (VStr "A bending beam.") eq_refl eq_refl eq_refl)).
Defined.

(** The two [KeyError]s, at options without a title and at options
    without a description, in the directory [out]; and the same options
    without any directory. *)
Lemma write_readme_key_error_witness :
  (Os.can_open (disk := sample_disk) (Utils.readme_path "out") = true
   /\ dict_get "title" options_without_title = None
   /\ (Utils.write_readme (fmt := sample_formatter) (disk := sample_disk)
         "out" options_without_title "today" ∅).2 = Utils.KeyError "title")
  /\ (dict_get "title" options_without_description = Some (VStr "Beam")
      /\ dict_get "description" options_without_description = None
      /\ (Utils.write_readme (fmt := sample_formatter) (disk := sample_disk)
            "out" options_without_description "today" ∅).2
         = Utils.KeyError "description")
  /\ (Os.can_open (disk := no_dirs) (Utils.readme_path "out") = false
      /\ Utils.write_readme (fmt := sample_formatter) (disk := no_dirs)
           "out" options_without_title "today" ∅
         = (∅, Utils.FileNotFoundError "out/README.md")).
Proof.
  split; [|split].
  - split; [reflexivity|]. split; [reflexivity|].
    exact (proj1 (proj1 (proj1 (write_readme_key_error (fmt := sample_formatter)
                                  (disk := sample_disk)
                                  "out" options_without_title "today" ∅) eq_refl)
                        eq_refl)).
  - split; [reflexivity|]. split; [reflexivity|].
    exact (proj1 (proj1 (proj2 (proj1 (write_readme_key_error (fmt := sample_formatter)
                                         (disk := sample_disk)
                                         "out" options_without_description "today" ∅)
                                      eq_refl))
                        (VStr "Beam") eq_refl eq_refl)).
  - split; [reflexivity|].
    exact (proj1 (proj2 (write_readme_key_error (fmt := sample_formatter)
                           (disk := no_dirs)
                           "out" options_without_title "today" ∅)) eq_refl).
Defined.

(** The README path for a directory path and for a path that already
    names the README; the file in the directory [out], and no file
    without it. *)
Lemma write_readme_path_witness :
  (endswith "./nonlinear" "README.md" = false
   /\ Utils.readme_path "./nonlinear" = "./nonlinear/README.md")
  /\ (endswith "./README.md" "README.md" = true
      /\ Utils.readme_path "./README.md" = "./README.md")
  /\ (Os.can_open (disk := sample_disk) (Utils.readme_path "out") = true
      /\ is_Some ((Utils.write_readme (fmt := sample_formatter) (disk := sample_disk)
                     "out" sample_options "today" ∅).1 !! Utils.readme_path "out"))
  /\ (Os.can_open (disk := no_dirs) (Utils.readme_path "missing") = false
      /\ Utils.write_readme (fmt := sample_formatter) (disk := no_dirs)
           "missing" sample_options "today" ∅
         = (∅, Utils.FileNotFoundError "missing/README.md")).
Proof.
  split; [|split; [|split]].
  - split; [reflexivity|].
    exact (proj1 (proj2 (write_readme_path (fmt := sample_formatter) (disk := no_dirs)
                           "./nonlinear" sample_options "today" ∅)) eq_refl).
  - split; [reflexivity|].
    exact (proj1 (proj2 (proj2 (write_readme_path (fmt := sample_formatter)
                                  (disk := no_dirs)
                                  "./README.md" sample_options "today" ∅))) eq_refl).
  - split; [reflexivity|].
    exact (proj1 (proj2 (proj2 (proj2 (proj2
             (write_readme_path (fmt := sample_formatter) (disk := sample_disk)
                "out" sample_options "today" ∅))))) eq_refl).
  - split; [reflexivity|].
    exact (proj2 (proj2 (proj2 (proj2 (proj2
             (write_readme_path (fmt := sample_formatter) (disk := no_dirs)
                "missing" sample_options "today" ∅))))) eq_refl).
Defined.

(** The README written for [sample_options], in full. *)
Example sample_readme :
  (Utils.write_readme (fmt := sample_formatter) (disk := sample_disk)
     "out" sample_options "today" ∅).1
    !! "out/README.md"
  = Some ("# Beam" +:+ nl +:+ nl +:+ "A bending beam." +:+ nl +:+ nl +:+ nl
          +:+ "## geometry" +:+ nl
          +:+ "| Parameter | Value |" +:+ nl +:+ "|:--|:--|" +:+ nl
          +:+ "| length | 20 |" +:+ nl
          +:+ "| height | 2 |" +:+ nl +:+ nl +:+ nl
          +:+ "## mesh" +:+ nl
          +:+ "| Parameter | Value |" +:+ nl +:+ "|:--|:--|" +:+ nl
          +:+ "| mesh_size | 0.1 |" +:+ nl +:+ nl +:+ nl
          +:+ "Last updated: today" +:+ nl).
Proof. vm_compute. reflexivity. Qed.

(** ** Properties of the generator scripts *)

Section ScriptFacts.
Import Cubit Trace.
Context {engine : Engine} {fmt : Formatter} {disk : Os.Disk}.

(** The stage check on a trace, as a computation. *)
Lemma commands_staged_check (t : list Effect) :
  forallb (fun e => match e with
                    | Session (Cmd command) => bool_decide (is_Some (command_phase command))
                    | _ => true
                    end) t = true ->
  commands_staged t.
Proof.
  unfold commands_staged. induction t as [|e t IH]; [constructor|].
  cbn [forallb]. intros [He Ht]%andb_true_iff. constructor; [|by apply IH].
  destruct e as [[]| |]; try exact I. by apply bool_decide_eq_true in He.
Qed.

(** [generate_bending_beam(filename)] has the session write [filename],
    and writes no other file. *)
Lemma generate_bending_beam_writes (filename : string) (fs : Utils.FS) :
  let w := run (BendingBeam.generate_bending_beam filename) fs in
  dat_files (trace w) = [filename]
  /\ files w = <[filename := dat_text (calls (trace w))]> fs.
Proof. split; reflexivity. Qed.

(** [generate_block(filename)] has the session write [filename], and
    writes no other file. *)
Lemma generate_block_writes (filename : string) (fs : Utils.FS) :
  let w := run (BlockTorsion.generate_block filename) fs in
  dat_files (trace w) = [filename]
  /\ files w = <[filename := dat_text (calls (trace w))]> fs.
Proof. split; reflexivity. Qed.

(** The files after a script followed by [write_readme]. *)
Lemma files_then_write_readme {A} (m : M A) now filepath options (fs : Utils.FS) :
  files (run (m;; write_readme now filepath options) fs)
  = (Utils.write_readme (disk := disk_of (run m fs))
       filepath options now (files (run m fs))).1.
Proof. reflexivity. Qed.

(** [os.makedirs] in front of a script writes no file. *)
Lemma files_makedirs_then {A} (m : M A) path (fs : Utils.FS) :
  files (run (makedirs path;; m) fs)
  = files (m {| trace := [Makedirs path]; files := fs; stdout := [];
                dirs := Os.makedirs path Os.directories |}).2.
Proof. reflexivity. Qed.

Lemma files_after_write_readme now filepath options (w : World) :
  files (write_readme now filepath options w).2
  = (Utils.write_readme (disk := disk_of w) filepath options now (files w)).1.
Proof. reflexivity. Qed.

Lemma files_bind {A B} (m : M A) (k : M B) (w : World) :
  files ((m;; k) w).2 = files (k (m w).2).2.
Proof. reflexivity. Qed.



(** A README in the working directory can always be opened. *)
Lemma can_open_here (d : Os.Disk) :
  Os.can_open (disk := d) (Utils.readme_path "./README.md") = true.
Proof. reflexivity. Qed.

(** A README in [./nonlinear] can be opened once the directory is made. *)
Lemma can_open_made (before : gset string) :
  Os.can_open (disk := {| Os.directories := Os.makedirs "./nonlinear" before |})
    (Utils.readme_path "./nonlinear/README.md") = true.
Proof.
  unfold Os.can_open, Os.dir_exists.
  change (Os.dirname (Utils.readme_path "./nonlinear/README.md")) with "./nonlinear".
  apply orb_true_iff. right. apply bool_decide_eq_true.
  unfold Os.makedirs. cbn [Os.directories].
  apply elem_of_union_l, elem_of_list_to_set, list_elem_of_here.
Qed.

(** The generators make no directory. *)
Lemma generators_keep_dirs (filename : string) (w : World) :
  dirs (BendingBeam.generate_bending_beam filename w).2 = dirs w
  /\ dirs (BlockTorsion.generate_block filename w).2 = dirs w
  /\ dirs (Semicircle.generate_semicircle filename w).2 = dirs w.
Proof. repeat split; reflexivity. Qed.

(** The two scripts that write an input file also write their README. *)
Lemma bending_beam_main_files (now : string) (fs : Utils.FS) :
  let w := run (BendingBeam.main now) fs in
  is_Some (files w !! "./hyperelastic_bending_beam.dat")
  /\ is_Some (files w !! "./README.md").
Proof.
  cbv zeta. unfold BendingBeam.main. rewrite files_then_write_readme. split.
  - rewrite write_readme_untouched by done.
    rewrite (proj2 (generate_bending_beam_writes _ fs)), lookup_insert_eq.
    by eexists.
  - apply (write_readme_creates "./README.md"), can_open_here.
Qed.

Lemma block_main_files (now : string) (fs : Utils.FS) :
  let w := run (BlockTorsion.main now) fs in
  is_Some (files w !! "./nonlinear/block_torsion.dat")
  /\ is_Some (files w !! "./nonlinear/README.md").
Proof.
  cbv zeta. unfold BlockTorsion.main. cbv zeta.
  rewrite files_makedirs_then, files_bind, files_after_write_readme. split.
  - rewrite write_readme_untouched by (vm_compute; discriminate).
    change (files (BlockTorsion.generate_block ?f ?w).2)
      with (<[f := dat_text (calls (trace (BlockTorsion.generate_block f w).2))]> (files w)).
    rewrite lookup_insert_eq. by eexists.
  - apply (write_readme_creates ("./" +:+ BlockTorsion.KINEMATICS +:+ "/README.md")).
    unfold disk_of. rewrite (proj1 (proj2 (generators_keep_dirs _ _))).
    apply can_open_made.
Qed.

(** C1, at [generate_semicircle]. Whatever [filename] it is given,
    [generate_semicircle] leaves the file system as it was: the session is
    never told to write an input file and the function opens none. The
    script as a whole writes its README and nothing else, so
    [./nonlinear/hertzian_contact.yaml] is what it was before the run. *)
Theorem generate_semicircle_writes_no_input_file
    (filename : string) (now : string) (fs : Utils.FS) :
  let g := run (Semicircle.generate_semicircle filename) fs in
  let w := run (Semicircle.main now) fs in
  files g = fs
  /\ dat_files (trace g) = [] /\ opened (trace g) = []
  /\ dat_files (trace w) = [] /\ opened (trace w) = ["./nonlinear/README.md"]
  /\ files w !! "./nonlinear/hertzian_contact.yaml"
     = fs !! "./nonlinear/hertzian_contact.yaml".
Proof.
  cbv zeta. repeat split; try reflexivity.
  unfold Semicircle.main. cbv zeta.
  rewrite files_makedirs_then, files_bind, files_after_write_readme.
  rewrite write_readme_untouched by (vm_compute; discriminate).
  reflexivity.
Qed.

(** C5. In each of the three scripts every node set is added with a
    non-empty name, a boundary-condition type that is Dirichlet, Neumann
    or contact, and a boundary-condition description. The bending beam
    adds four such sets, the block and the semicircle two each. *)
Theorem node_sets_are_named_bc_sets (now : string) (fs : Utils.FS) :
  let beam := node_sets (trace (run (BendingBeam.main now) fs)) in
  let block := node_sets (trace (run (BlockTorsion.main now) fs)) in
  let semicircle := node_sets (trace (run (Semicircle.main now) fs)) in
  (Forall named_bc_set beam
   /\ omap node_set_name beam = ["bottom"; "left"; "top"; "right"])
  /\ (Forall named_bc_set block
      /\ omap node_set_name block = ["rigid_left"; "torsion_right"])
  /\ (Forall named_bc_set semicircle
      /\ omap node_set_name semicircle
         = ["top_boundary_neumann"; "bottom_boundary_contact"]).
Proof.
  cbv zeta. repeat split; try reflexivity; vm_compute;
    repeat (constructor; [split; [discriminate|tauto]|]); constructor.
Qed.

(** C6. The parameters of a script are module-level constants, fixed
    before anything happens. Each script then runs in stages: geometry
    commands, then meshing commands, then node sets and element blocks,
    then the head text and the files; every command belongs to a stage,
    and after the session has written the input file nothing more is asked
    of it. In the bending beam and the block all that follows the input
    file is the README. *)
Theorem scripts_are_staged (now : string) (fs : Utils.FS) :
  let beam := trace (run (BendingBeam.main now) fs) in
  let block := trace (run (BlockTorsion.main now) fs) in
  let semicircle := trace (run (Semicircle.main now) fs) in
  (staged beam /\ after_dat beam = [Open "./README.md"])
  /\ (staged block /\ after_dat block = [Open "./nonlinear/README.md"])
  /\ staged semicircle.
Proof.
  cbv zeta. unfold staged.
  repeat split; try reflexivity.
  all: try (apply Sorted_StronglySorted; [intros ? ? ? ? ?; lia|];
            vm_compute; repeat constructor).
  all: try (apply commands_staged_check; vm_compute; reflexivity).
  all: vm_compute; repeat constructor.
Qed.

(** C4, as the code has it. The [femref] package defines three functions,
    not two: [cubit_cmd] and [print_mesh_statistics] in [cubit_utils.py]
    and [write_readme] in [utils.py]. [print_mesh_statistics] prints the
    node total, the element total and one line per node set, and each of
    the three scripts prints exactly these lines, for the session as it is
    when the node sets and element blocks are in place. *)
Theorem shared_functions_are_three (now : string) (fs : Utils.FS) :
  (forall f, In f Femref.shared_functions <->
             f = "cubit_cmd" \/ f = "print_mesh_statistics" \/ f = "write_readme")
  /\ NoDup Femref.shared_functions
  /\ (forall (S : Type) (ops : CubitUtils.CubitSession S) (cubit : S),
        length (CubitUtils.print_mesh_statistics cubit)
        = (2 + length (CubitUtils.parse_cubit_list "nodeset" "all" cubit))%nat)
  /\ (exists h, h `prefix_of` calls (trace (run (BendingBeam.main now) fs))
                /\ stdout (run (BendingBeam.main now) fs)
                   = CubitUtils.print_mesh_statistics h)
  /\ (exists h, h `prefix_of` calls (trace (run (BlockTorsion.main now) fs))
                /\ stdout (run (BlockTorsion.main now) fs)
                   = CubitUtils.print_mesh_statistics h)
  /\ (exists h, h `prefix_of` calls (trace (run (Semicircle.main now) fs))
                /\ stdout (run (Semicircle.main now) fs)
                   = CubitUtils.print_mesh_statistics h).
Proof.
  split.
  { intros f. cbn. intuition. }
  split.
  { apply (bool_decide_unpack _). vm_compute. reflexivity. }
  split.
  { intros S ops cubit. unfold CubitUtils.print_mesh_statistics.
    cbn [length]. by rewrite length_map. }
  split; [|split].
  - exists (take 12 (calls (trace (run (BendingBeam.main now) fs)))).
    split; [apply prefix_take|vm_compute; reflexivity].
  - exists (take 10 (calls (trace (run (BlockTorsion.main now) fs)))).
    split; [apply prefix_take|vm_compute; reflexivity].
  - exists (take 45 (calls (trace (run (Semicircle.main now) fs)))).
    split; [apply prefix_take|vm_compute; reflexivity].
Qed.

End ScriptFacts.

(** The claim that the package holds no function besides the id differ and
    the README writer fails at [print_mesh_statistics]. *)
Lemma print_mesh_statistics_is_a_third_function :
  ~ (forall f, In f Femref.shared_functions -> f = "cubit_cmd" \/ f = "write_readme").
Proof.
  intros H. destruct (H "print_mesh_statistics") as [E|E].
  - cbn. auto.
  - discriminate E.
  - discriminate E.
Qed.

(** ** The three scripts on the small engine, from an empty file system
       without directories *)

(** The block script leaves its input file and its README. *)
Example block_run_files :
  dom (Cubit.files (Cubit.run (disk := no_dirs) (BlockTorsion.main (engine := ToyEngine.toy_engine)
                                 (fmt := sample_formatter) "today") ∅))
  = ({[ "./nonlinear/block_torsion.dat"; "./nonlinear/README.md" ]} : gset string).
Proof. vm_compute. reflexivity. Qed.

(** The bending-beam script leaves its input file and its README. *)
Example bending_beam_run_files :
  dom (Cubit.files (Cubit.run (disk := no_dirs) (BendingBeam.main (engine := ToyEngine.toy_engine)
                                 (fmt := sample_formatter) "today") ∅))
  = ({[ "./hyperelastic_bending_beam.dat"; "./README.md" ]} : gset string).
Proof. vm_compute. reflexivity. Qed.

(** The semicircle script leaves its README only. *)
Example semicircle_run_files :
  dom (Cubit.files (Cubit.run (disk := no_dirs) (Semicircle.main (engine := ToyEngine.toy_engine)
                                 (fmt := sample_formatter) "today") ∅))
  = ({[ "./nonlinear/README.md" ]} : gset string).
Proof. vm_compute. reflexivity. Qed.

(** Without [os.makedirs] before it, the README step of the block script
    finds no directory: nothing is written. *)
Example readme_needs_directory :
  Cubit.write_readme (fmt := sample_formatter)
    "today" "./nonlinear/README.md" BlockTorsion.OPTIONS
    {| Cubit.trace := []; Cubit.files := ∅; Cubit.stdout := []; Cubit.dirs := ∅ |}
  = (Utils.FileNotFoundError "./nonlinear/README.md",
     {| Cubit.trace := [Cubit.Open "./nonlinear/README.md"]; Cubit.files := ∅;
        Cubit.stdout := []; Cubit.dirs := ∅ |}).
Proof. vm_compute. reflexivity. Qed.

(** What the semicircle script prints. *)
Example semicircle_run_stdout :
  Cubit.stdout (Cubit.run (disk := no_dirs) (Semicircle.main (engine := ToyEngine.toy_engine)
                             (fmt := sample_formatter) "today") ∅)
  = [ "Total nodes:        100"; "Total elements:     81";
      "Nodes in Nodeset 1: 11"; "Nodes in Nodeset 2: 12" ].
Proof. vm_compute. reflexivity. Qed.

(** The commands of the block script, with the sample formatter printing
    every float as [0.1]. *)
Example block_run_commands :
  omap (fun e => match e with Cubit.Session (Cubit.Cmd c) => Some c | _ => None end)
       (Cubit.trace (Cubit.run (disk := no_dirs) (BlockTorsion.main (engine := ToyEngine.toy_engine)
                                  (fmt := sample_formatter) "today") ∅))
  = [ "brick x 4 y 1 z 1"; "move volume 1 x 0.1 y 0 z 0 include_merged";
      "volume 1 size 0.1"; "mesh volume 1" ].
Proof. vm_compute. reflexivity. Qed.

(** ** More on [cubit_cmd] *)

Section CubitCmdMore.
Import CubitUtils.
Context {S : Type} {session_ops : CubitSession S} {py_set : PySet}.

(** X1. Two [cubit_cmd] calls in a row that track the same entity type
    never return a common id: what the first returns exists when the
    second starts, and the second returns only ids that did not. *)
Theorem cubit_cmd_twice_disjoint
    (first second : string) (cubit : S) (track_id : string) (flat1 flat2 : bool) :
  let r1 := cubit_cmd first cubit track_id flat1 in
  let r2 := cubit_cmd second r1.1 track_id flat2 in
  ids_of r1.2 ## ids_of r2.2.
Proof.
  cbv zeta. rewrite !cubit_cmd_ids, cubit_cmd_session.
  apply elem_of_disjoint. intros id H1 H2.
  apply elem_of_difference in H1 as [H1 _].
  apply elem_of_difference in H2 as [_ H2]. by apply H2.
Qed.

(** X2. When the command removes no tracked entity, the number of ids
    returned is the growth of the tracked set. *)
Theorem cubit_cmd_counts_additions
    (command : string) (cubit : S) (track_id : string) (flatten : bool) :
  tracked track_id cubit ⊆ tracked track_id (cmd command cubit) ->
  (size (ids_of (cubit_cmd command cubit track_id flatten).2)
   + size (tracked track_id cubit)
   = size (tracked track_id (cmd command cubit)))%nat.
Proof.
  intros Hsub. rewrite cubit_cmd_ids, size_difference by done.
  apply subseteq_size in Hsub. lia.
Qed.

(** X3. When the command creates no tracked entity (it changes nothing,
    or only removes), the result is the empty list, also with
    [flatten_if_possible=True]: ids that disappear are not reported. *)
Theorem cubit_cmd_nothing_new
    (command : string) (cubit : S) (track_id : string) (flatten : bool) :
  tracked track_id (cmd command cubit) ⊆ tracked track_id cubit ->
  (cubit_cmd command cubit track_id flatten).2 = Many [].
Proof.
  intros Hsub. unfold cubit_cmd.
  rewrite (subseteq_empty_difference_L _ _ Hsub).
  pose proof (list_of_set_length ∅) as Hlen. rewrite size_empty in Hlen.
  by destruct (list_of_set ∅).
Qed.

End CubitCmdMore.

(** Counting on the small session: ["split"] after one brick keeps volume
    [1] and returns two ids. *)
Lemma cubit_cmd_counts_additions_witness :
  CubitUtils.tracked "volume" Toy.one_brick
    ⊆ CubitUtils.tracked "volume" (CubitUtils.cmd "split" Toy.one_brick)
  /\ (size (CubitUtils.ids_of (CubitUtils.cubit_cmd "split" Toy.one_brick "volume" true).2)
      + size (CubitUtils.tracked "volume" Toy.one_brick)
      = size (CubitUtils.tracked "volume" (CubitUtils.cmd "split" Toy.one_brick)))%nat.
Proof.
  assert (H : CubitUtils.tracked "volume" Toy.one_brick
                ⊆ CubitUtils.tracked "volume" (CubitUtils.cmd "split" Toy.one_brick)).
  { apply (bool_decide_unpack _). vm_compute. reflexivity. }
  split; [exact H|].
  exact (cubit_cmd_counts_additions "split" Toy.one_brick "volume" true H).
Defined.

(** Nothing new on the small session: ["delete"] after one brick. *)
Lemma cubit_cmd_nothing_new_witness :
  CubitUtils.tracked "volume" (CubitUtils.cmd "delete" Toy.one_brick)
    ⊆ CubitUtils.tracked "volume" Toy.one_brick
  /\ (CubitUtils.cubit_cmd "delete" Toy.one_brick "volume" true).2 = CubitUtils.Many [].
Proof.
  assert (H : CubitUtils.tracked "volume" (CubitUtils.cmd "delete" Toy.one_brick)
                ⊆ CubitUtils.tracked "volume" Toy.one_brick).
  { apply (bool_decide_unpack _). vm_compute. reflexivity. }
  split; [exact H|].
  exact (cubit_cmd_nothing_new "delete" Toy.one_brick "volume" true H).
Defined.

(** ** More on [write_readme] *)

Section ReadmeMore.
Import Utils.
Context {fmt : Formatter} {disk : Os.Disk}.

Lemma readme_path_ends (filepath : string) :
  endswith (readme_path filepath) "README.md" = true.
Proof.
  unfold readme_path. destruct (endswith filepath "README.md") eqn:E; [done|].
  cbn [negb]. change "/README.md" with ("/" +:+ "README.md").
  rewrite <- append_assoc. apply endswith_append.
Qed.

Lemma readme_path_fixed (filepath : string) :
  readme_path (readme_path filepath) = readme_path filepath.
Proof. unfold readme_path at 1. by rewrite readme_path_ends. Qed.

(** The last character of a string with a given suffix is the last
    character of the suffix. *)
Lemma endswith_last (s suffix : string) :
  suffix <> "" ->
  endswith s suffix = true ->
  String.get (String.length s - 1) s = String.get (String.length suffix - 1) suffix.
Proof.
  intros Hne. unfold endswith. intros [Hle Heq]%andb_true_iff.
  apply Nat.leb_le in Hle. apply String.eqb_eq in Heq.
  assert (0 < String.length suffix)%nat as Hpos.
  { destruct suffix; [done|]. cbn [String.length]. lia. }
  rewrite <- Heq at 2.
  rewrite substring_correct1 by lia. f_equal. lia.
Qed.

Lemma no_dict_entries (options : list (string * Value)) :
  forallb (fun kv => negb (has_items kv.2)) options = true ->
  dict_entries options = [].
Proof.
  induction options as [|[k v] options IH]; [done|].
  cbn [forallb fst snd]. intros [Hv Hrest]%andb_true_iff.
  destruct v; cbn [dict_entries]; try (by apply IH). discriminate Hv.
Qed.

(** X4. A second [write_readme] to the same place replaces what the first
    one wrote: the file system is the one a single call of the second
    would leave, whatever the first call wrote or raised. Running a script
    again therefore never appends to, nor keeps part of, the old README. *)
Theorem write_readme_overwrites
    (filepath : string) (options1 options2 : list (string * Value))
    (now1 now2 : string) (fs : FS) :
  write_readme filepath options2 now2 (write_readme filepath options1 now1 fs).1
  = write_readme filepath options2 now2 fs.
Proof.
  unfold write_readme.
  destruct (Os.can_open (readme_path filepath)); cbn [negb fst]; [|done].
  destruct (dict_get "title" options1), (dict_get "description" options1),
    (dict_get "title" options2), (dict_get "description" options2);
    cbn [fst snd]; by rewrite ?insert_insert_eq.
Qed.

(** X5. A directory and the README inside it name the same call:
    [write_readme] with the path it would open gives the same file system
    and outcome as with the path it was given. *)
Theorem write_readme_same_for_opened_path
    (filepath : string) (options : list (string * Value)) (now : string) (fs : FS) :
  write_readme (readme_path filepath) options now fs
  = write_readme filepath options now fs.
Proof. unfold write_readme. by rewrite readme_path_fixed. Qed.

(** X6. The test on the path is textual. A [filepath] with a trailing
    slash still gets [/README.md] appended, so the opened path has a
    double slash; and any [filepath] whose text ends in [README.md] is
    opened as it is, also when [README.md] is only the tail of a longer
    file name. *)
Theorem readme_path_is_textual (filepath : string) :
  (endswith filepath "/" = true -> readme_path filepath = filepath +:+ "/README.md")
  /\ readme_path (filepath +:+ "README.md") = filepath +:+ "README.md".
Proof.
  split.
  - intros Hslash. unfold readme_path.
    destruct (endswith filepath "README.md") eqn:E; [|done].
    apply endswith_last in Hslash; [|done].
    apply endswith_last in E; [|done].
    rewrite Hslash in E. discriminate E.
  - unfold readme_path. by rewrite endswith_append.
Qed.

(** X7. With a title and a description but no entry that is a dictionary,
    the README, when the file can be opened, holds the header, the
    description and the [Last updated] line, and no section. *)
Theorem write_readme_without_sections
    (filepath : string) (options : list (string * Value)) (now : string) (fs : FS)
    (title description : Value) :
  Os.can_open (readme_path filepath) = true ->
  dict_get "title" options = Some title ->
  dict_get "description" options = Some description ->
  forallb (fun kv => negb (has_items kv.2)) options = true ->
  write_readme filepath options now fs
  = (<[readme_path filepath :=
         "# " +:+ str title +:+ nl +:+ nl
         +:+ str description +:+ nl +:+ nl +:+ nl
         +:+ "Last updated: " +:+ now +:+ nl]> fs,
     Returned).
Proof.
  intros Hopen Ht Hd Hplain. unfold write_readme. rewrite Hopen, Ht, Hd.
  cbn [negb].
  rewrite write_parameters_join, (no_dict_entries _ Hplain).
  rewrite insert_insert_eq. unfold write, join. cbn [map fold_right].
  change ("" +:+ ?x) with x.
  by rewrite append_nil_r, !append_assoc.
Qed.

End ReadmeMore.

(** A trailing slash, on a sample path. *)
Lemma readme_path_is_textual_witness :
  endswith "out/" "/" = true
  /\ Utils.readme_path "out/" = "out//README.md".
Proof.
  split; [reflexivity|].
  exact (proj1 (readme_path_is_textual "out/") eq_refl).
Defined.

(** A README without sections, at [plain_options] in the directory [out]. *)
Lemma write_readme_without_sections_witness :
  Os.can_open (disk := sample_disk) (Utils.readme_path "out") = true
  /\ dict_get "title" plain_options = Some (VStr "Beam")
  /\ dict_get "description" plain_options = Some (VStr "A bending beam.")
  /\ forallb (fun kv => negb (has_items kv.2)) plain_options = true
  /\ Utils.write_readme (fmt := sample_formatter) (disk := sample_disk)
       "out" plain_options "today" ∅
     = (<[Utils.readme_path "out" :=
            "# " +:+ "Beam" +:+ nl +:+ nl
            +:+ "A bending beam." +:+ nl +:+ nl +:+ nl
            +:+ "Last updated: " +:+ "today" +:+ nl]> ∅,
        Utils.Returned).
Proof.
  split; [reflexivity|].
  split; [reflexivity|]. split; [reflexivity|]. split; [reflexivity|].
  exact (write_readme_without_sections (fmt := sample_formatter) (disk := sample_disk)
           "out" plain_options "today" ∅ (VStr "Beam") (VStr "A bending beam.")
           eq_refl eq_refl eq_refl eq_refl).
Defined.

(** ** More on the generator scripts *)

Section ScriptsMore.
Import Cubit Trace Observe.
Context {engine : Engine} {fmt : Formatter} {disk : Os.Disk}.


(** X10. In [generate_bending_beam] and [generate_block] the head text is
    assigned exactly once and [create_dat] is called exactly once, with
    the [filename] given: the assignment to [cubit.head] and
    [create_dat(filename)] are the last two calls on the session, in this
    order, and no earlier call is either of them. *)
Theorem head_set_before_create_dat (filename : string) (fs : Utils.FS) :
  let beam := run (BendingBeam.generate_bending_beam filename) fs in
  let block := run (BlockTorsion.generate_block filename) fs in
  (exists h, calls (trace beam) = h ++ [SetHead BendingBeam.head; CreateDat filename]
             /\ Forall (fun c => match c with
                                 | SetHead _ | CreateDat _ => False
                                 | _ => True
                                 end) h)
  /\ (exists h, calls (trace block) = h ++ [SetHead BlockTorsion.head; CreateDat filename]
                /\ Forall (fun c => match c with
                                    | SetHead _ | CreateDat _ => False
                                    | _ => True
                                    end) h).
Proof.
  cbv zeta. split.
  - exists (take 12 (calls (trace (run (BendingBeam.generate_bending_beam filename) fs)))).
    split; [vm_compute; reflexivity|].
    vm_compute. repeat (constructor; [exact I|]). constructor.
  - exists (take 10 (calls (trace (run (BlockTorsion.generate_block filename) fs)))).
    split; [vm_compute; reflexivity|].
    vm_compute. repeat (constructor; [exact I|]). constructor.
Qed.

(** X11. The block and the semicircle scripts make the directory
    [./nonlinear] before anything else, and every path they write lies in
    it; the bending-beam script makes no directory and writes into the
    working directory. *)
Theorem output_directory_first (now : string) (fs : Utils.FS) :
  let beam := trace (run (BendingBeam.main now) fs) in
  let block := trace (run (BlockTorsion.main now) fs) in
  let semicircle := trace (run (Semicircle.main now) fs) in
  (made_dirs beam = []
   /\ written beam = ["./hyperelastic_bending_beam.dat"; "./README.md"])
  /\ (head block = Some (Makedirs "./nonlinear")
      /\ made_dirs block = ["./nonlinear"]
      /\ written block = ["./nonlinear/block_torsion.dat"; "./nonlinear/README.md"]
      /\ Forall (fun path => startswith path "./nonlinear/" = true) (written block))
  /\ (head semicircle = Some (Makedirs "./nonlinear")
      /\ made_dirs semicircle = ["./nonlinear"]
      /\ written semicircle = ["./nonlinear/README.md"]
      /\ Forall (fun path => startswith path "./nonlinear/" = true) (written semicircle)).
Proof.
  cbv zeta. repeat split; try (vm_compute; reflexivity).
  all: vm_compute; repeat (constructor; [reflexivity|]); constructor.
Qed.

(** X12. The bending-beam script never calls [display_in_cubit]; the
    block script calls it once, labelling the surfaces, and the semicircle
    script once without labels, whatever the engine answers. *)
Theorem display_calls (now : string) (fs : Utils.FS) :
  displays (trace (run (BendingBeam.main now) fs)) = []
  /\ displays (trace (run (BlockTorsion.main now) fs)) = [[cupy.surface]]
  /\ displays (trace (run (Semicircle.main now) fs)) = [[]].
Proof. repeat split; vm_compute; reflexivity. Qed.

(** X13. Every element block is added with a description that carries
    the kinematics of the script ([KINEM nonlinear]). The bending beam has
    one block of [quad4] elements, the block one of [hex8], the semicircle
    two of [quad4]; and once the first element block is added, no further
    node set is. *)
Theorem element_blocks_carry_kinematics (now : string) (fs : Utils.FS) :
  let beam := trace (run (BendingBeam.main now) fs) in
  let block := trace (run (BlockTorsion.main now) fs) in
  let semicircle := trace (run (Semicircle.main now) fs) in
  (Forall (carries_kinematics BendingBeam.KINEMATICS) (element_blocks beam)
   /\ omap block_type (element_blocks beam) = [cupy.quad4]
   /\ node_sets (after_element_block beam) = [])
  /\ (Forall (carries_kinematics BlockTorsion.KINEMATICS) (element_blocks block)
      /\ omap block_type (element_blocks block) = [cupy.hex8]
      /\ node_sets (after_element_block block) = [])
  /\ (Forall (carries_kinematics Semicircle.KINEMATICS) (element_blocks semicircle)
      /\ omap block_type (element_blocks semicircle) = [cupy.quad4; cupy.quad4]
      /\ node_sets (after_element_block semicircle) = []).
Proof.
  cbv zeta. repeat split; try (vm_compute; reflexivity).
  all: vm_compute; repeat (constructor; [reflexivity|]); constructor.
Qed.

(** X14. In each script every node set is made of the group created by
    the call right before it: no node set reuses an older group or another
    kind of item. *)
Theorem node_sets_use_fresh_groups (now : string) (fs : Utils.FS) :
  fresh_groups [] (calls (trace (run (BendingBeam.main now) fs)))
  /\ fresh_groups [] (calls (trace (run (BlockTorsion.main now) fs)))
  /\ fresh_groups [] (calls (trace (run (Semicircle.main now) fs))).
Proof. split; [|split]; vm_compute; repeat split. Qed.

End ScriptsMore.

(** What each script prints, as [print_mesh_statistics] of the calls made
    until then. *)
Lemma scripts_stdout (engine : Cubit.Engine) (fmt : Formatter) (disk : Os.Disk)
    (now : string) (fs : Utils.FS) :
  Cubit.stdout (Cubit.run (BendingBeam.main now) fs)
  = CubitUtils.print_mesh_statistics
      (take 12 (Cubit.calls (Cubit.trace (Cubit.run (BendingBeam.main now) fs))))
  /\ Cubit.stdout (Cubit.run (BlockTorsion.main now) fs)
     = CubitUtils.print_mesh_statistics
         (take 10 (Cubit.calls (Cubit.trace (Cubit.run (BlockTorsion.main now) fs))))
  /\ Cubit.stdout (Cubit.run (Semicircle.main now) fs)
     = CubitUtils.print_mesh_statistics
         (take 45 (Cubit.calls (Cubit.trace (Cubit.run (Semicircle.main now) fs)))).
Proof. split; [|split]; vm_compute; reflexivity. Qed.

Lemma print_mesh_statistics_length (engine : Cubit.Engine) (h : list Cubit.Call) :
  Observe.lists_node_sets engine ->
  length (CubitUtils.print_mesh_statistics h) = (2 + Observe.node_set_count h)%nat.
Proof.
  intros Hlist. unfold CubitUtils.print_mesh_statistics. cbn [length].
  rewrite length_map. cbn [Nat.add]. do 2 f_equal. apply Hlist.
Qed.

(** X15. With an engine whose node-set list has one id per node set
    added, the scripts print two totals and one line per node set: six
    lines for the bending beam, four for the block and four for the
    semicircle. *)
Theorem printed_line_counts (engine : Cubit.Engine) (fmt : Formatter)
    (disk : Os.Disk) (now : string) (fs : Utils.FS) :
  Observe.lists_node_sets engine ->
  length (Cubit.stdout (Cubit.run (BendingBeam.main now) fs)) = 6%nat
  /\ length (Cubit.stdout (Cubit.run (BlockTorsion.main now) fs)) = 4%nat
  /\ length (Cubit.stdout (Cubit.run (Semicircle.main now) fs)) = 4%nat.
Proof.
  intros Hlist.
  destruct (scripts_stdout engine fmt disk now fs) as (-> & -> & ->).
  rewrite !print_mesh_statistics_length by done.
  split; [|split]; vm_compute; reflexivity.
Qed.

(** The small engine lists its node sets, and the scripts print as counted. *)
Lemma printed_line_counts_witness :
  length (Cubit.stdout (Cubit.run (disk := no_dirs)
                          (BendingBeam.main (engine := ToyEngine.toy_engine)
                             (fmt := sample_formatter) "today") ∅)) = 6%nat.
Proof.
  refine (proj1 (printed_line_counts ToyEngine.toy_engine sample_formatter no_dirs
                   "today" ∅ _)).
  intros h. unfold Observe.node_set_count. cbn [Cubit.entity_list ToyEngine.toy_engine].
  change (String.eqb "nodeset" "nodeset") with true. cbv iota.
  rewrite length_map. apply length_seq.
Defined.

(** ** The head text and the clock *)


(** X17. The clock reaches the README through its last line only: for
    options with a title and a description, and a file that can be
    opened, there is one body such that, at every clock reading, the file
    is that body followed by the [Last updated] line. *)
Theorem write_readme_clock_in_last_line (fmt : Formatter) (disk : Os.Disk)
    (filepath : string) (options : list (string * Value)) (title description : Value) :
  Os.can_open (Utils.readme_path filepath) = true ->
  dict_get "title" options = Some title ->
  dict_get "description" options = Some description ->
  exists body, forall (now : string) (fs : Utils.FS),
    (Utils.write_readme filepath options now fs).1 !! Utils.readme_path filepath
    = Some (body +:+ "Last updated: " +:+ now +:+ nl).
Proof.
  intros Hopen Ht Hd.
  exists (Utils.write_parameters options
            (Utils.write (Utils.write "" ("# " +:+ str title +:+ nl +:+ nl))
                         (str description +:+ nl +:+ nl +:+ nl))).
  intros now fs. unfold Utils.write_readme. rewrite Hopen, Ht, Hd. cbn [negb fst].
  by rewrite lookup_insert_eq.
Qed.

(** The clock in the last line, at [plain_options] in the directory [out]. *)
Lemma write_readme_clock_in_last_line_witness :
  Os.can_open (disk := sample_disk) (Utils.readme_path "out") = true
  /\ dict_get "title" plain_options = Some (VStr "Beam")
  /\ dict_get "description" plain_options = Some (VStr "A bending beam.")
  /\ exists body, forall (now : string) (fs : Utils.FS),
       (Utils.write_readme (fmt := sample_formatter) (disk := sample_disk)
          "out" plain_options now fs).1
         !! Utils.readme_path "out"
       = Some (body +:+ "Last updated: " +:+ now +:+ nl).
Proof.
  split; [reflexivity|]. split; [reflexivity|]. split; [reflexivity|].
  exact (write_readme_clock_in_last_line sample_formatter sample_disk "out" plain_options
           (VStr "Beam") (VStr "A bending beam.") eq_refl eq_refl eq_refl).
Defined.
